(** * CTImagesMaskedBatch: a shallow embedding of [preprocessing/ct_masked_batch.py]

    The batch keeps many CT scans stacked along axis 0 of one array (the
    "skyscraper"), a table [_bounds] of the scans' first planes, a mask of the
    same layout and a table of annotated nodules.

    Conventions of the embedding:
    - integer arrays ([_bounds], positions, sizes, shapes) are lists of [Z];
    - [float64] values are rationals [Q]: the properties below are about
      rounding, clamping and scaling, none about the precision of floats;
    - a 3d array is its list of planes together with its two inner extents,
      so that the shape of an array without planes is still known;
    - a method of the batch is a function from the batch before the call to
      the outcome ([Ok] or [Raise]) and the batch after the call;
    - the draws of [np.random] are arguments of the functions that use them;
    - start pixels stay in the range of [int32];
    - what the module imports from the rest of the package ([get_pos] of the
      index, [get_image] of the parent class, [make_mask_patient],
      [any_action_failed], the bounds after a rebuild) is modelled from the
      specification and marked as such. *)

From Stdlib Require Import String Ascii ZArith QArith Qround Qabs Bool Lia Lqa List.
From Stdlib Require Import Sorted Permutation.
Import ListNotations.
Close Scope Q_scope.
Local Open Scope Z_scope.

Set Implicit Arguments.

(** ** Python outcomes *)

Module Py.

Inductive exn : Set :=
| AttributeError | IndexError | ValueError | TypeError
| NotImplementedError | KeyError | AssertionError.

Inductive result (A : Type) : Type :=
| Ok (a : A)
| Raise (e : exn).
Arguments Ok {A} a.
Arguments Raise {A} e.

Definition bind {A B} (r : result A) (k : A -> result B) : result B :=
  match r with
  | Ok a => k a
  | Raise e => Raise e
  end.

Definition of_option {A} (e : exn) (o : option A) : result A :=
  match o with
  | Some a => Ok a
  | None => Raise e
  end.

(** An argument that is either an [int] or a [str] ([isinstance] tells). *)
Inductive index : Set :=
| Int (p : Z)
| Str (s : string).

(** An argument that is either a [str] or a [list]/[tuple] of [str]. *)
Inductive strs : Set :=
| OneStr (s : string)
| Seq (l : list string).

(** Truth value of a [str]: only the empty string is false. *)
Definition truthy (s : string) : bool :=
  match s with
  | EmptyString => false
  | String _ _ => true
  end.

(** Iterating a [str] yields its characters as strings of length one. *)
Fixpoint chars (s : string) : list string :=
  match s with
  | EmptyString => []
  | String c t => String c EmptyString :: chars t
  end.

Definition iter (v : strs) : list string :=
  match v with
  | OneStr s => chars s
  | Seq l => l
  end.

Definition len (v : strs) : Z :=
  match v with
  | OneStr s => Z.of_nat (String.length s)
  | Seq l => Z.of_nat (List.length l)
  end.

End Py.
Import Py.

Declare Scope py_scope.
Notation "x <- r ;; k" := (Py.bind r (fun x => k))
  (at level 61, r at next level, right associativity) : py_scope.
Local Open Scope py_scope.

(** ** Numpy primitives *)

Module Np.

(** [l[i]] for an integer [i]: negative indices count from the end. *)
Definition get {A} (l : list A) (i : Z) : option A :=
  let n := Z.of_nat (length l) in
  if (0 <=? i) && (i <? n) then nth_error l (Z.to_nat i)
  else if (- n <=? i) && (i <? 0) then nth_error l (Z.to_nat (i + n))
  else None.

(** A slice bound, brought into [0, n]. *)
Definition clip (n i : Z) : Z :=
  Z.max 0 (Z.min n (if i <? 0 then i + n else i)).

(** First index and number of elements of [l[lo:hi]] for [len(l) = n]. *)
Definition slice_start (n lo : Z) : nat := Z.to_nat (clip n lo).
Definition slice_len (n lo hi : Z) : nat := Z.to_nat (clip n hi - clip n lo).

(** [l[lo:hi]]. *)
Definition slice {A} (l : list A) (lo hi : Z) : list A :=
  let n := Z.of_nat (length l) in
  firstn (slice_len n lo hi) (skipn (slice_start n lo) l).

(** [l[lo:hi] = v] through a view: the planes of the slice are replaced. *)
Definition set_slice {A} (l : list A) (lo hi : Z) (v : list A) : list A :=
  let n := Z.of_nat (length l) in
  firstn (slice_start n lo) l ++ v
    ++ skipn (slice_start n lo + slice_len n lo hi) l.

(** [np.rint]: to the nearest integer, a tie to the even one. *)
Definition rint (q : Q) : Z :=
  let f := Qfloor q in
  match Qcompare (q - inject_Z f) (1 # 2) with
  | Lt => f
  | Gt => f + 1
  | Eq => if Z.even f then f else f + 1
  end.

(** [.astype(np.int)] and Python's [int()]: truncation towards zero. *)
Definition astype_int (q : Q) : Z :=
  if Qle_bool 0 q then Qfloor q else Qceiling q.

(** A 3d [float64] array of shape [(len planes, shape1, shape2)]. *)
Record ndarray3 : Type := {
  shape1 : Z;
  shape2 : Z;
  planes : list (list (list Q))
}.

Definition shape0 (a : ndarray3) : Z := Z.of_nat (length (planes a)).
Definition shape (a : ndarray3) : Z * Z * Z := (shape0 a, shape1 a, shape2 a).

(** [a[lo:hi, :, :]]. *)
Definition slice0 (a : ndarray3) (lo hi : Z) : ndarray3 :=
  {| shape1 := shape1 a; shape2 := shape2 a; planes := slice (planes a) lo hi |}.

End Np.

(** ** Vectors of three components, in z, y, x order *)

Definition vec3 (A : Type) : Type := (A * A * A)%type.

Definition v3map {A B} (f : A -> B) (v : vec3 A) : vec3 B :=
  let '(a, b, c) := v in (f a, f b, f c).

Definition v3map2 {A B C} (f : A -> B -> C) (v : vec3 A) (w : vec3 B) : vec3 C :=
  let '(a, b, c) := v in let '(a', b', c') := w in (f a a', f b b', f c c').

Definition ax0 {A} (v : vec3 A) : A := fst (fst v).
Definition ax1 {A} (v : vec3 A) : A := snd (fst v).
Definition ax2 {A} (v : vec3 A) : A := snd v.

(** The three components of a vector satisfy [P]. *)
Definition v3all {A} (P : A -> Prop) (v : vec3 A) : Prop :=
  P (ax0 v) /\ P (ax1 v) /\ P (ax2 v).

(** ** The batch *)

(** One row of the record array [self.nodules]. *)
Record Nodule : Type := {
  nod_bias : vec3 Q;
  nod_origin : vec3 Q;
  nod_spacing : vec3 Q;
  nod_center : vec3 Q;
  nod_size : vec3 Q;
  nod_img_size : vec3 Q
}.

(** The attributes of a [CTImagesMaskedBatch]; [None] is Python's [None]. *)
Record Batch : Type := {
  indices : list string;
  _data : option Np.ndarray3;
  _bounds : list Z;
  mask : option Np.ndarray3;
  nodules : option (list Nodule);
  nodules_pat_pos : option (list Z);
  spacing : option (list (vec3 Q));
  origin : option (list (vec3 Q))
}.

(** A method: the outcome of the call and the batch after it. *)
Definition method (A : Type) : Type := Batch -> Py.result A * Batch.

Definition set_mask (b : Batch) (m : Np.ndarray3) : Batch :=
  {| indices := indices b; _data := _data b; _bounds := _bounds b;
     mask := Some m; nodules := nodules b;
     nodules_pat_pos := nodules_pat_pos b;
     spacing := spacing b; origin := origin b |}.

(** Number of scans of the batch, [len(self.index)]. *)
Definition n_scans (b : Batch) : Z := Z.of_nat (length (indices b)).

(** Modelled from the spec: [self.index.get_pos] of the dataset index class,
    which is not part of this module. A scan identifier has a stable position
    [0..N-1] in the ordered set of identifiers; an identifier that is not in
    the index is an error. *)
Fixpoint get_pos_from (ids : list string) (i : Z) (id : string) : Py.result Z :=
  match ids with
  | [] => Raise KeyError
  | h :: t => if String.eqb h id then Ok i else get_pos_from t (i + 1) id
  end.

Definition get_pos (b : Batch) (id : string) : Py.result Z :=
  get_pos_from (indices b) 0 id.

(** The position addressed by [index], as [get_mask] resolves it. *)
Definition resolve_pos (b : Batch) (index : Py.index) : Py.result Z :=
  match index with
  | Int p =>
      if (p <? Z.of_nat (length (_bounds b)) - 1) && (p >=? 0) then Ok p
      else Raise IndexError
  | Str s => get_pos b s
  end.

(** [lower] and [upper] of the scan addressed by [index]. *)
Definition scan_bounds (b : Batch) (index : Py.index) : Py.result (Z * Z) :=
  pos <- resolve_pos b index ;;
  lower <- Py.of_option IndexError (Np.get (_bounds b) pos) ;;
  upper <- Py.of_option IndexError (Np.get (_bounds b) (pos + 1)) ;;
  Ok (lower, upper).

(** [get_mask]: the view [self.mask[lower:upper, :, :]] on one scan's mask. *)
Definition get_mask (b : Batch) (index : Py.index) : Py.result Np.ndarray3 :=
  lu <- scan_bounds b index ;;
  m <- Py.of_option TypeError (mask b) ;;
  Ok (Np.slice0 m (fst lu) (snd lu)).

(** Modelled from the spec: [get_image] of the parent class [CTImagesBatch]
    ([get_scan] in the spec), which is not part of this module: the same
    contract as [get_mask], over the data buffer. *)
Definition get_image (b : Batch) (index : Py.index) : Py.result Np.ndarray3 :=
  lu <- scan_bounds b index ;;
  d <- Py.of_option TypeError (_data b) ;;
  Ok (Np.slice0 d (fst lu) (snd lu)).

(** ** Mask engine *)

Fixpoint imap_from {A B} (f : Z -> A -> B) (i : Z) (l : list A) : list B :=
  match l with
  | [] => []
  | a :: t => f i a :: imap_from f (i + 1) t
  end.

(** The voxels at the coordinates selected by [P] are set to 1; the first
    plane of [pl] has z coordinate [z0]. *)
Definition mark_from (P : Z -> Z -> Z -> bool) (z0 : Z)
    (pl : list (list (list Q))) : list (list (list Q)) :=
  imap_from (fun z =>
    imap_from (fun y =>
      imap_from (fun x old => if P z y x then 1%Q else old) 0) 0) z0 pl.

Definition in_box (start size : vec3 Z) (z y x : Z) : bool :=
  (ax0 start <=? z) && (z <? ax0 start + ax0 size) &&
  (ax1 start <=? y) && (y <? ax1 start + ax1 size) &&
  (ax2 start <=? x) && (x <? ax2 start + ax2 size).

(** Modelled from the spec: [make_mask_patient] of the module [mask], which
    is not part of this module. Each nodule of the scan is rasterized as a
    filled axis-aligned box covering its voxel extent, at value 1, in the
    scan's mask sub-volume; the other voxels are left as they are, so the
    boxes of several nodules are unioned. *)
Fixpoint make_mask_patient (pat_mask : list (list (list Q)))
    (start size : list (vec3 Z)) : list (list (list Q)) :=
  match start, size with
  | s :: start', d :: size' =>
      make_mask_patient (mark_from (in_box s d) 0 pat_mask) start' size'
  | _, _ => pat_mask
  end.

(** [np.rint(np.abs(center - origin) / spacing)] of one nodule. *)
Definition center_pix (nd : Nodule) : vec3 Z :=
  v3map Np.rint
    (v3map2 Qdiv (v3map Qabs (v3map2 Qminus (nod_center nd) (nod_origin nd)))
       (nod_spacing nd)).

(** [np.rint(size / spacing).astype(np.int)] of one nodule. *)
Definition size_pix (nd : Nodule) : vec3 Z :=
  v3map Np.rint (v3map2 Qdiv (nod_size nd) (nod_spacing nd)).

(** [(center_pix - np.rint(size_pix / 2)).astype(np.int)] of one nodule. *)
Definition start_pix (nd : Nodule) : vec3 Z :=
  v3map2 Z.sub (center_pix nd)
    (v3map (fun s => Np.rint (inject_Z s / 2)) (size_pix nd)).

(** [rows[ndarray_mask, :]]: the rows at the true places of a boolean mask of
    the same length. *)
Fixpoint select {A} (ndarray_mask : list bool) (rows : list A)
  : Py.result (list A) :=
  match ndarray_mask, rows with
  | [], [] => Ok []
  | m :: ms, r :: rs =>
      sel <- select ms rs ;; Ok (if m then r :: sel else sel)
  | _, _ => Raise IndexError
  end.

(** [self.nodules_pat_pos == pos]; comparing [None] gives [False]. *)
Definition pat_pos_eq (b : Batch) (pos : Z) : list bool :=
  match nodules_pat_pos b with
  | Some pp => map (Z.eqb pos) pp
  | None => []
  end.

(** One round of the loop of [create_mask]: the nodules of [patient_id] are
    written into the batch's mask through the view that [get_mask] returns. *)
Definition create_mask_scan (start size : list (vec3 Z)) (patient_id : string)
    (b : Batch) : Py.result Batch :=
  pos <- get_pos b patient_id ;;
  let ndarray_mask := pat_pos_eq b pos in
  if existsb (fun x => x) ndarray_mask then
    lu <- scan_bounds b (Str patient_id) ;;
    m <- Py.of_option TypeError (mask b) ;;
    st <- select ndarray_mask start ;;
    sz <- select ndarray_mask size ;;
    let view := Np.slice (Np.planes m) (fst lu) (snd lu) in
    Ok (set_mask b
          {| Np.shape1 := Np.shape1 m; Np.shape2 := Np.shape2 m;
             Np.planes := Np.set_slice (Np.planes m) (fst lu) (snd lu)
                            (make_mask_patient view st sz) |})
  else Ok b.

Fixpoint create_mask_loop (start size : list (vec3 Z)) (ids : list string)
  : method unit :=
  fun b =>
    match ids with
    | [] => (Ok tt, b)
    | patient_id :: rest =>
        match create_mask_scan start size patient_id b with
        | Ok b' => create_mask_loop start size rest b'
        | Raise e => (Raise e, b)
        end
    end.

(** [create_mask]; the batch after the call is the [self] it returns. *)
Definition create_mask : method unit :=
  fun b =>
    match nodules b with
    | None => (Raise AttributeError, b)
    | Some nods =>
        create_mask_loop (map start_pix nods) (map size_pix nods) (indices b) b
    end.

(** ** Parallel mask build *)

(** Modelled from the spec: [any_action_failed] of the module
    [dataset_import], which is not part of this module. The parallel dispatch
    returns an ordered list of results or failures, one per task; an action
    failed when one of them is a failure. *)
Definition any_action_failed {A} (list_of_res : list (Py.result A)) : bool :=
  existsb (fun r => match r with Raise _ => true | Ok _ => false end)
          list_of_res.

(** The statement [assert e] for a string [e]. *)
Definition py_assert (e : string) : Py.result unit :=
  if Py.truthy e then Ok tt else Raise AssertionError.

(** [_post_create_mask], run on the results of the tasks. *)
Definition _post_create_mask {A} (list_of_res : list (Py.result A))
  : method unit :=
  fun b =>
    if any_action_failed list_of_res then
      match py_assert "Some actions failed during threading" with
      | Ok _ => (Ok tt, b)
      | Raise e => (Raise e, b)
      end
    else (Ok tt, b).

(** ** Patch sampler *)

Definition Qlt_bool (a b : Q) : bool := negb (Qle_bool b a).

(** The clamping of [_shift_out_of_bounds] for one nodule: its start pixel in
    the scan for a patch of [size] pixels, shifted inward by the excess over
    [img_size] first and by the deficit under zero next. *)
Definition shifted_start_pix (size : vec3 Z) (nd : Nodule) : vec3 Q :=
  let size := v3map inject_Z size in
  let center_pix :=
    v3map2 Qdiv (v3map Qabs (v3map2 Qminus (nod_center nd) (nod_origin nd)))
      (nod_spacing nd) in
  let start_pix :=
    v3map2 Qminus (v3map (fun c => inject_Z (Np.rint c)) center_pix)
      (v3map (fun s => inject_Z (Np.rint (s / 2))) size) in
  let end_pix := v3map2 Qplus start_pix size in
  let bias_upper :=
    v3map2 (fun e img => if Qlt_bool img e then (e - img)%Q else 0%Q)
      end_pix (nod_img_size nd) in
  let start_pix := v3map2 Qminus start_pix bias_upper in
  let bias_lower :=
    v3map (fun s => if Qlt_bool s 0 then (- s)%Q else 0%Q) start_pix in
  v3map2 Qplus start_pix bias_lower.

(** [_shift_out_of_bounds]: the start pixels of all nodules in the
    skyscraper, [(start_pix + self.nodules.bias).astype(np.int)]. *)
Definition _shift_out_of_bounds (size : vec3 Z) (nods : list Nodule)
  : list (vec3 Z) :=
  map (fun nd =>
         v3map Np.astype_int
           (v3map2 Qplus (shifted_start_pix size nd) (nod_bias nd)))
      nods.

Fixpoint mapM {A B} (f : A -> Py.result B) (l : list A) : Py.result (list B) :=
  match l with
  | [] => Ok []
  | a :: t => x <- f a ;; xs <- mapM f t ;; Ok (x :: xs)
  end.

(** One row of the result of [sample_random_nodules], for a scan drawn by
    [np.random.choice] whose bounds are [lo] and [hi], and the vector [u]
    drawn for it by [np.random.rand]. *)
Definition random_start (data : Np.ndarray3) (nodule_size : vec3 Z)
    (lohi : Z * Z) (u : vec3 Q) : vec3 Q :=
  let shape_z := fst lohi - snd lohi in
  let offset : vec3 Q := (inject_Z (fst lohi), 0%Q, 0%Q) in
  let data_shape : vec3 Z := (shape_z, Np.shape1 data, Np.shape2 data) in
  let samples :=
    v3map2 Qmult u (v3map inject_Z (v3map2 Z.sub data_shape nodule_size)) in
  v3map2 Qplus samples offset.

(** [self._bounds[i]] and [self._bounds[i + 1]]. *)
Definition bounds_at (b : Batch) (i : Z) : Py.result (Z * Z) :=
  lo <- Py.of_option IndexError (Np.get (_bounds b) i) ;;
  hi <- Py.of_option IndexError (Np.get (_bounds b) (i + 1)) ;;
  Ok (lo, hi).

(** [sample_random_nodules]; [sampled_indices] and [rand] are the draws of
    [np.random.choice(all_indices, n_nodules, replace=True)] and of
    [np.random.rand(n_nodules, 3)]. *)
Definition sample_random_nodules (b : Batch) (n_nodules : Z)
    (nodule_size : vec3 Z) (sampled_indices : list Z) (rand : list (vec3 Q))
  : Py.result (list (vec3 Q)) :=
  if n_nodules <? 0 then Raise ValueError
  else if (n_scans b =? 0) && (0 <? n_nodules) then Raise ValueError
  else
    lohi <- mapM (bounds_at b) sampled_indices ;;
    data <- Py.of_option AttributeError (_data b) ;;
    Ok (map (fun d => random_start data nodule_size (fst d) (snd d))
            (combine lohi rand)).

(** What the draws of [sample_random_nodules] are: [n_nodules] positions of
    scans and as many vectors of numbers of [[0, 1)]. *)
Definition random_draws (b : Batch) (n_nodules : Z) (sampled_indices : list Z)
    (rand : list (vec3 Q)) : Prop :=
  Z.of_nat (length sampled_indices) = n_nodules /\
  Z.of_nat (length rand) = n_nodules /\
  Forall (fun i => 0 <= i < n_scans b) sampled_indices /\
  Forall (v3all (fun u => (0 <= u)%Q /\ (u < 1)%Q)) rand.

(** Assignment of an array to [out_arr[i, ...]]: an extent of the source is
    the extent of the target, or 1 and then stretched. *)
Definition fits (extent lo size : Z) : bool :=
  let d := Z.of_nat (Np.slice_len extent lo (lo + size)) in
  (d =? size) || (d =? 1).

Definition stretch {A} (d : A) (n : Z) (l : list A) : list A :=
  if Z.of_nat (length l) =? n then l else repeat (hd d l) (Z.to_nat n).

(** [data[p0 : p0 + size[0], p1 : p1 + size[1], p2 : p2 + size[2]]], as it is
    stored in [out_arr[i, :, :, :]]. *)
Definition patch (data : Np.ndarray3) (pos size : vec3 Z)
  : list (list (list Q)) :=
  stretch [] (ax0 size)
    (map (fun pl =>
            stretch [] (ax1 size)
              (map (fun row =>
                      stretch 0%Q (ax2 size)
                        (Np.slice row (ax2 pos) (ax2 pos + ax2 size)))
                   (Np.slice pl (ax1 pos) (ax1 pos + ax1 size))))
         (Np.slice (Np.planes data) (ax0 pos) (ax0 pos + ax0 size))).

(** [get_nodules_jit]: the patches at [positions], stacked along axis 0. *)
Definition get_nodules_jit (data : Np.ndarray3) (positions : list (vec3 Z))
    (size : vec3 Z) : Py.result Np.ndarray3 :=
  if (ax0 size <? 0) || (ax1 size <? 0) || (ax2 size <? 0) then
    Raise ValueError
  else if forallb (fun pos =>
                     fits (Np.shape0 data) (ax0 pos) (ax0 size) &&
                     fits (Np.shape1 data) (ax1 pos) (ax1 size) &&
                     fits (Np.shape2 data) (ax2 pos) (ax2 size)) positions
  then
    Ok {| Np.shape1 := ax1 size; Np.shape2 := ax2 size;
          Np.planes := concat (map (fun pos => patch data pos size) positions) |}
  else Raise ValueError.

(** [np.arange(n) * k]. *)
Definition arange_times (n k : Z) : list Z :=
  map (fun i => Z.of_nat i * k) (seq 0 (Z.to_nat n)).

(** The draws of one call of [sample_nodules]. *)
Record Draws : Type := {
  sample_indices : list Z;    (* choice(arange(n_nodules), cancer_n, replace=False) *)
  sampled_indices : list Z;   (* choice of sample_random_nodules *)
  rand : list (vec3 Q);       (* rand of sample_random_nodules *)
  new_indices : list string   (* make_indices(batch_size) *)
}.

(** [cancer_n] of [sample_nodules]. *)
Definition cancer_n (share : Q) (batch_size n_nodules : Z) : Z :=
  let cancer_n := Np.astype_int (share * inject_Z batch_size) in
  if cancer_n >? n_nodules then n_nodules else cancer_n.

(** The start pixels that [sample_nodules] collects: those of the annotated
    nodules that were drawn, then those of the random ones, both as
    [.astype('int32')] leaves them in [np.vstack([cancer_nodules,
    random_nodules])]: the first are integers already, the second are
    truncated. *)
Definition nodules_indices (b : Batch) (batch_size : Z) (nodule_size : vec3 Z)
    (share : Q) (dr : Draws)
  : Py.result (list (vec3 Z) * list (vec3 Z)) :=
  nods <- Py.of_option AttributeError (nodules b) ;;
  pp <- Py.of_option AttributeError (nodules_pat_pos b) ;;
  let n_nodules := Z.of_nat (length pp) in
  let cancer_n := cancer_n share batch_size n_nodules in
  cancer_nodules <-
    (if n_nodules =? 0 then Ok []
     else if cancer_n <? 0 then Raise ValueError
     else
       let cancer_nodules := _shift_out_of_bounds nodule_size nods in
       mapM (fun i => Py.of_option IndexError (Np.get cancer_nodules i))
            (sample_indices dr)) ;;
  random_nodules <-
    sample_random_nodules b (batch_size - cancer_n) nodule_size
      (sampled_indices dr) (rand dr) ;;
  Ok (cancer_nodules, map (v3map Np.astype_int) random_nodules).

(** [sample_nodules]: the batch of patches; [self] is only read. *)
Definition sample_nodules (batch_size : Z) (nodule_size : vec3 Z) (share : Q)
    (dr : Draws) : method Batch :=
  fun b =>
    (match nodules b with
     | None => Raise AttributeError
     | Some _ =>
         cr <- nodules_indices b batch_size nodule_size share dr ;;
         let nodules_indices := fst cr ++ snd cr in
         src <- Py.of_option AttributeError (_data b) ;;
         data <- get_nodules_jit src nodules_indices nodule_size ;;
         msk <- Py.of_option TypeError (mask b) ;;
         mask <- get_nodules_jit msk nodules_indices nodule_size ;;
         let bounds := arange_times (Np.shape0 data + 1) (ax0 nodule_size) in
         if batch_size <? 0 then Raise ValueError
         else
           Ok {| indices := new_indices dr; _data := Some data;
                 _bounds := bounds; mask := Some mask; nodules := None;
                 nodules_pat_pos := None; spacing := None; origin := None |}
     end, b).

(** What the draws of [sample_nodules] are for a batch with [n_nodules]
    nodules. *)
Definition sample_draws (b : Batch) (batch_size n_nodules : Z) (share : Q)
    (dr : Draws) : Prop :=
  let k := cancer_n share batch_size n_nodules in
  (n_nodules <> 0 -> Z.of_nat (length (sample_indices dr)) = k) /\
  NoDup (sample_indices dr) /\
  Forall (fun i => 0 <= i < n_nodules) (sample_indices dr) /\
  random_draws b (batch_size - k) (sampled_indices dr) (rand dr) /\
  Z.of_nat (length (new_indices dr)) = batch_size.

(** ** Dump *)

(** One call of [dump_blosc(data, index, path)]: the blob written to
    [path/index/data.blk]. *)
Inductive blob : Type :=
| Blob (data : Np.ndarray3) (index path : string).

Definition dtype_values : list string := ["source"; "mask"]%string.

(** The checks of [dump] on its arguments. *)
Definition dump_check (dst dtype : Py.strs) : Py.result unit :=
  match dtype with
  | Seq l =>
      if existsb (fun dt => negb (existsb (String.eqb dt) dtype_values)) l then
        Raise ValueError
      else if negb (Py.len dtype =? Py.len dst) then Raise ValueError
      else Ok tt
  | OneStr _ =>
      match dst with
      | OneStr _ => Ok tt
      | Seq _ => Raise ValueError
      end
  end.

(** The inner loop of [dump] over [zip(dtype, dst)] for one scan: the outcome
    and the blobs written, in order. *)
Fixpoint dump_types (b : Batch) (lower upper : Z) (patient_id : string)
    (pairs : list (string * string)) : Py.result unit * list blob :=
  match pairs with
  | [] => (Ok tt, [])
  | (dump_type, dump_path) :: rest =>
      if String.eqb dump_type "source" then
        match _data b with
        | None => (Raise TypeError, [])
        | Some d =>
            let r := dump_types b lower upper patient_id rest in
            (fst r, Blob (Np.slice0 d lower upper) patient_id dump_path :: snd r)
        end
      else if String.eqb dump_type "mask" then
        match mask b with
        | None => (Raise TypeError, [])
        | Some m =>
            let r := dump_types b lower upper patient_id rest in
            (fst r, Blob (Np.slice0 m lower upper) patient_id dump_path :: snd r)
        end
      else dump_types b lower upper patient_id rest
  end.

Fixpoint dump_loop (b : Batch) (dst dtype : Py.strs) (ids : list string)
  : Py.result unit * list blob :=
  match ids with
  | [] => (Ok tt, [])
  | patient_id :: rest =>
      match (patient_pos <- get_pos b patient_id ;; bounds_at b patient_pos) with
      | Raise e => (Raise e, [])
      | Ok lu =>
          match dump_types b (fst lu) (snd lu) patient_id
                  (combine (Py.iter dtype) (Py.iter dst)) with
          | (Ok _, w) =>
              let r := dump_loop b dst dtype rest in (fst r, w ++ snd r)
          | (Raise e, w) => (Raise e, w)
          end
      end
  end.

(** [dump]: the outcome and the blobs written; the batch is only read. *)
Definition dump (b : Batch) (dst dtype : Py.strs)
  : Py.result unit * list blob :=
  match dump_check dst dtype with
  | Raise e => (Raise e, [])
  | Ok _ => dump_loop b dst dtype (indices b)
  end.

(** ** Resize *)

Definition set_spacing (b : Batch) (sp : list (vec3 Q)) : Batch :=
  {| indices := indices b; _data := _data b; _bounds := _bounds b;
     mask := mask b; nodules := nodules b;
     nodules_pat_pos := nodules_pat_pos b;
     spacing := Some sp; origin := origin b |}.

Definition set_nodules (b : Batch) (nods : list Nodule) : Batch :=
  {| indices := indices b; _data := _data b; _bounds := _bounds b;
     mask := mask b; nodules := Some nods;
     nodules_pat_pos := nodules_pat_pos b;
     spacing := spacing b; origin := origin b |}.

Fixpoint update {A} (l : list A) (i : nat) (f : A -> A) : list A :=
  match l, i with
  | [], _ => []
  | a :: t, O => f a :: t
  | a :: t, S j => a :: update t j f
  end.

(** [l[i] = f(l[i])] for a position [i] of the index (never negative). *)
Definition modify {A} (l : list A) (i : Z) (f : A -> A) : Py.result (list A) :=
  if (0 <=? i) && (i <? Z.of_nat (length l)) then Ok (update l (Z.to_nat i) f)
  else Raise IndexError.

(** [old_shape / new_shape]. *)
Definition shape_ratio (old_shape new_shape : vec3 Z) : vec3 Q :=
  v3map2 Qdiv (v3map inject_Z old_shape) (v3map inject_Z new_shape).

(** The first loop of [_rescale_spacing]: the spacing of every scan is
    multiplied in place. *)
Fixpoint rescale_loop (new_shape : vec3 Z) (ids : list string) : method unit :=
  fun b =>
    match ids with
    | [] => (Ok tt, b)
    | patient_id :: rest =>
        match
          (img <- get_image b (Str patient_id) ;;
           pos <- get_pos b patient_id ;;
           sp <- Py.of_option TypeError (spacing b) ;;
           modify sp pos
             (fun s => v3map2 Qmult s (shape_ratio (Np.shape img) new_shape)))
        with
        | Ok sp' => rescale_loop new_shape rest (set_spacing b sp')
        | Raise e => (Raise e, b)
        end
    end.

(** The rows that [_rescale_spacing] reads for the nodule table:
    [self.spacing[self.nodules_pat_pos, :]], which must fit the table. *)
Definition nodule_spacings (b : Batch) (nods : list Nodule)
  : Py.result (list Z * list (vec3 Q)) :=
  pp <- Py.of_option AttributeError (nodules_pat_pos b) ;;
  sp <- Py.of_option TypeError (spacing b) ;;
  spc <- mapM (fun p => Py.of_option IndexError (Np.get sp p)) pp ;;
  if Nat.eqb (length nods) (length pp) then Ok (pp, spc) else Raise ValueError.

(** The second part of [_rescale_spacing]: the columns [spacing], [img_size]
    and [bias] of the nodule table are assigned, in this order; the outcome
    and the table after it. *)
Definition rescale_nodules (new_shape : vec3 Z) (b : Batch)
    (nods : list Nodule) : Py.result unit * list Nodule :=
  match nodule_spacings b nods with
  | Raise e => (Raise e, nods)
  | Ok (pp, spc) =>
      let nods1 :=
        map (fun r =>
               {| nod_bias := (0%Q, 0%Q, 0%Q);
                  nod_origin := nod_origin (fst r);
                  nod_spacing := snd r;
                  nod_center := nod_center (fst r);
                  nod_size := nod_size (fst r);
                  nod_img_size := v3map inject_Z new_shape |})
            (combine nods spc) in
      match mapM (fun p => Py.of_option IndexError
                    (Np.get (arange_times (n_scans b) (ax0 new_shape)) p)) pp
      with
      | Raise e => (Raise e, nods1)
      | Ok bias0 =>
          (Ok tt,
           map (fun r =>
                  {| nod_bias := (inject_Z (snd r), 0%Q, 0%Q);
                     nod_origin := nod_origin (fst r);
                     nod_spacing := nod_spacing (fst r);
                     nod_center := nod_center (fst r);
                     nod_size := nod_size (fst r);
                     nod_img_size := nod_img_size (fst r) |})
               (combine nods1 bias0))
      end
  end.

(** [_rescale_spacing]. *)
Definition _rescale_spacing (new_shape : vec3 Z) : method unit :=
  fun b =>
    match spacing b with
    | None => (Ok tt, b)
    | Some _ =>
        match rescale_loop new_shape (indices b) b with
        | (Raise e, b1) => (Raise e, b1)
        | (Ok _, b1) =>
            match nodules b1 with
            | None => (Ok tt, b1)
            | Some nods =>
                let r := rescale_nodules new_shape b1 nods in
                (fst r, set_nodules b1 (snd r))
            end
        end
    end.

(** Modelled from the spec: the bounds that the parent class's
    [_post_rebuild], which is not part of this module, gives the resized
    batch: [target_shape[0]] repeated N times, cumulative. *)
Definition resized_bounds (n : Z) (target_shape : vec3 Z) : list Z :=
  arange_times (n + 1) (ax0 target_shape).

(** ** Sample batches *)

(** [np.zeros((d, h, w))]. *)
Definition zeros (d h w : nat) : Np.ndarray3 :=
  {| Np.shape1 := Z.of_nat h; Np.shape2 := Z.of_nat w;
     Np.planes := repeat (repeat (repeat 0%Q w) h) d |}.

Definition unit_nodule (bias_z : Z) (center : vec3 Q) (diam : Q)
    (img_size : vec3 Z) : Nodule :=
  {| nod_bias := (inject_Z bias_z, 0%Q, 0%Q);
     nod_origin := (0%Q, 0%Q, 0%Q);
     nod_spacing := (1%Q, 1%Q, 1%Q);
     nod_center := center;
     nod_size := (diam, diam, diam);
     nod_img_size := v3map inject_Z img_size |}.

(** Two scans of 4 and 6 planes of 4 x 4 voxels with unit spacing; one nodule
    in each. *)
Definition two_scans : Batch :=
  {| indices := ["A"; "B"]%string;
     _data := Some (zeros 10 4 4);
     _bounds := [0; 4; 10];
     mask := Some (zeros 10 4 4);
     nodules := Some [unit_nodule 0 (2%Q, 2%Q, 2%Q) 2%Q (4, 4, 4);
                      unit_nodule 4 (5%Q, 1%Q, 3%Q) 2%Q (6, 4, 4)];
     nodules_pat_pos := Some [0; 1];
     spacing := Some [(1%Q, 1%Q, 1%Q); (1%Q, 1%Q, 1%Q)];
     origin := Some [(0%Q, 0%Q, 0%Q); (0%Q, 0%Q, 0%Q)] |}.

(** The same scans before [fetch_nodules_info]: no nodule table. *)
Definition no_nodules : Batch :=
  {| indices := indices two_scans; _data := _data two_scans;
     _bounds := _bounds two_scans; mask := mask two_scans;
     nodules := None; nodules_pat_pos := None;
     spacing := spacing two_scans; origin := origin two_scans |}.

Definition half3 : vec3 Q := ((1 # 2)%Q, (1 # 2)%Q, (1 # 2)%Q).


(** Draws for [sample_nodules(2, (2, 2, 2), share)] on [two_scans] when one
    nodule and one random scan are asked for. *)
Definition one_one_draws : Draws :=
  {| sample_indices := [1];
     sampled_indices := [0];
     rand := [(0%Q, (1 # 2)%Q, (1 # 2)%Q)];
     new_indices := ["p0"; "p1"]%string |}.

(** The buffer invariant of the data model: one bound more than scans. *)
Definition skyscraper (b : Batch) : Prop :=
  Z.of_nat (length (_bounds b)) = n_scans b + 1.

(** The bounds do not decrease from one scan to the next. *)
Definition nondecreasing (b : Batch) : Prop :=
  forall p, 0 <= p < n_scans b ->
    nth (Z.to_nat p) (_bounds b) 0 <= nth (Z.to_nat (p + 1)) (_bounds b) 0.


(** On one axis, the [size] pixels from [start] on lie in [[0, img_size)]. *)
Definition axis_inside (start size img_size : Q) : Prop :=
  (0 <= start)%Q /\ (start + size <= img_size)%Q.


(** A nodule centred on the corner of the second scan of [two_scans]. *)
Definition corner_nodule : Nodule :=
  unit_nodule 4 (0%Q, 4%Q, 2%Q) 2%Q (6, 4, 4).

(** The nodule table fits the batch: one owning scan per nodule. *)
Definition table_fits (b : Batch) : Prop :=
  match nodules b with
  | None => True
  | Some nods =>
      match nodules_pat_pos b with
      | None => False
      | Some pp =>
          length nods = length pp /\
          Forall (fun p => 0 <= p < n_scans b) pp
      end
  end.

(** The scan at position [p] of a batch with the data [d]. *)
Definition scan_at (b : Batch) (d : Np.ndarray3) (p : Z) : Np.ndarray3 :=
  Np.slice0 d (nth (Z.to_nat p) (_bounds b) 0)
              (nth (Z.to_nat (p + 1)) (_bounds b) 0).

(** The spacing [s] of the scan at position [p] after [_rescale_spacing]. *)
Definition rescaled (b : Batch) (d : Np.ndarray3) (new_shape : vec3 Z)
    (p : Z) (s : vec3 Q) : vec3 Q :=
  v3map2 Qmult s (shape_ratio (Np.shape (scan_at b d p)) new_shape).

(** A nodule of the scan at position [p] with its cached geometry brought to
    the resized batch: the spacing [sp] of the scans, the target shape and
    the resized bounds. *)
Definition rewritten (n : Z) (new_shape : vec3 Z) (sp : list (vec3 Q))
    (nd : Nodule) (p : Z) : Nodule :=
  {| nod_bias :=
       (inject_Z (nth (Z.to_nat p) (resized_bounds n new_shape) 0), 0%Q, 0%Q);
     nod_origin := nod_origin nd;
     nod_spacing := nth (Z.to_nat p) sp (0%Q, 0%Q, 0%Q);
     nod_center := nod_center nd;
     nod_size := nod_size nd;
     nod_img_size := v3map inject_Z new_shape |}.

(** The voxels of a scan that [make_mask_patient] sets for the boxes given
    by [start] and [size]. *)
Fixpoint boxes (start size : list (vec3 Z)) (z y x : Z) : bool :=
  match start, size with
  | s :: start', d :: size' => in_box s d z y x || boxes start' size' z y x
  | _, _ => false
  end.

(** The voxels of a buffer of [n] planes that are selected by [P] in the
    view [[lo:hi]] on it. *)
Definition in_view (n lo hi : Z) (P : Z -> Z -> Z -> bool) (z y x : Z) : bool :=
  let a := Z.of_nat (Np.slice_start n lo) in
  (a <=? z) && (z <? a + Z.of_nat (Np.slice_len n lo hi)) && P (z - a) y x.

(** The batch with the voxels selected by [P] set to 1 in its mask. *)
Definition remark (P : Z -> Z -> Z -> bool) (b : Batch) : Batch :=
  match mask b with
  | None => b
  | Some m =>
      set_mask b {| Np.shape1 := Np.shape1 m; Np.shape2 := Np.shape2 m;
                    Np.planes := mark_from P 0 (Np.planes m) |}
  end.

(** The voxels of the mask that one round of the loop of [create_mask] sets,
    or the error it raises. *)
Definition scan_marks (start size : list (vec3 Z)) (patient_id : string)
    (b : Batch) : Py.result (Z -> Z -> Z -> bool) :=
  pos <- get_pos b patient_id ;;
  let ndarray_mask := pat_pos_eq b pos in
  if existsb (fun x => x) ndarray_mask then
    lu <- scan_bounds b (Str patient_id) ;;
    m <- Py.of_option TypeError (mask b) ;;
    st <- select ndarray_mask start ;;
    sz <- select ndarray_mask size ;;
    Ok (in_view (Z.of_nat (length (Np.planes m))) (fst lu) (snd lu)
          (boxes st sz))
  else Ok (fun _ _ _ => false).

(** ** Further methods of the batch *)

(** Every plane of the array has [shape1] rows of [shape2] values. *)
Definition well_shaped (a : Np.ndarray3) : Prop :=
  Forall (fun pl => Z.of_nat (length pl) = Np.shape1 a /\
                    Forall (fun row => Z.of_nat (length row) = Np.shape2 a) pl)
         (Np.planes a).

(** The value at [[z, y, x]], for indices that are not negative. *)
Definition voxel (pl : list (list (list Q))) (z y x : nat) : option Q :=
  match nth_error pl z with
  | Some plane =>
      match nth_error plane y with
      | Some row => nth_error row x
      | None => None
      end
  | None => None
  end.

(** [np.zeros_like(a)]. *)
Definition zeros_like (a : Np.ndarray3) : Np.ndarray3 :=
  {| Np.shape1 := Np.shape1 a; Np.shape2 := Np.shape2 a;
     Np.planes := map (map (map (fun _ => 0%Q))) (Np.planes a) |}.

Section Load.

(** [_load_raw] reads the scans with SimpleITK, outside this module; it is
    taken as it comes and is expected to leave the data of the batch set. *)
Variable _load_raw : method unit.

(** [load], for a call that passes [bounds]. *)
Definition load (src : option Np.ndarray3) (fmt : string) (bounds : list Z)
    (origin_ spacing_ : option (list (vec3 Q))) (nodules_ : option (list Nodule))
  : method unit :=
  fun b =>
    if String.eqb fmt "raw" then
      match _load_raw b with
      | (Ok _, b1) =>
          (Ok tt,
           {| indices := indices b1; _data := _data b1; _bounds := _bounds b1;
              mask := option_map zeros_like (_data b1);
              nodules := nodules b1; nodules_pat_pos := nodules_pat_pos b1;
              spacing := spacing b1; origin := origin b1 |})
      | (Raise e, b1) => (Raise e, b1)
      end
    else if existsb (String.eqb fmt) ["dicom"; "blosc"]%string then
      (Raise NotImplementedError, b)
    else if String.eqb fmt "ndarray" then
      (Ok tt,
       {| indices := indices b; _data := src; _bounds := bounds;
          mask := mask b; nodules := nodules_;
          nodules_pat_pos := nodules_pat_pos b;
          spacing := spacing_; origin := origin_ |})
    else (Raise TypeError, b).

End Load.

(** One row of the dataframe of annotations that [fetch_nodules_info] gets. *)
Record DfRow : Type := {
  seriesuid : string;
  coordZ : Q;
  coordY : Q;
  coordX : Q;
  diameter_mm : Q
}.

Fixpoint insert_unique (s : string) (l : list string) : list string :=
  match l with
  | [] => [s]
  | h :: t =>
      match String.compare s h with
      | Lt => s :: h :: t
      | Eq => h :: t
      | Gt => h :: insert_unique s t
      end
  end.

(** [np.intersect1d(ar1, ar2)]: the values of both, sorted, each once. *)
Definition intersect1d (ar1 ar2 : list string) : list string :=
  fold_right insert_unique []
    (filter (fun s => existsb (String.eqb s) ar2) ar1).

(** [nodules_df.loc[inter_index, ...]]: for every label in turn, the rows
    that carry it, in their order. *)
Definition df_loc (nodules_df : list DfRow) (inter_index : list string)
  : list DfRow :=
  flat_map (fun id => filter (fun r => String.eqb (seriesuid r) id) nodules_df)
           inter_index.

(** One round of the loop of [fetch_nodules_info]: the position of the scan
    of the nodule, the shape of that scan ([self[pat_id].shape], the parent's
    item access, taken as [get_image]), the centre and the size. *)
Definition nodule_row (b : Batch) (r : DfRow)
  : Py.result (Z * vec3 Z * vec3 Q * vec3 Q) :=
  pat_pos <- get_pos b (seriesuid r) ;;
  img <- get_image b (Str (seriesuid r)) ;;
  Ok (pat_pos, Np.shape img, (coordZ r, coordY r, coordX r),
      (diameter_mm r, diameter_mm r, diameter_mm r)).

(** The record array and the positions that [fetch_nodules_info] builds. *)
Definition nodules_table (b : Batch) (nodules_df : list DfRow)
  : Py.result (list Nodule * list Z) :=
  let inter_index := intersect1d (map seriesuid nodules_df) (indices b) in
  infos <- mapM (nodule_row b) (df_loc nodules_df inter_index) ;;
  let nod_pat_pos := map (fun i => fst (fst (fst i))) infos in
  bias0 <- mapM (fun p => Py.of_option IndexError (Np.get (_bounds b) p))
                nod_pat_pos ;;
  sp <- Py.of_option TypeError (spacing b) ;;
  spacing_arr <- mapM (fun p => Py.of_option IndexError (Np.get sp p))
                      nod_pat_pos ;;
  og <- Py.of_option TypeError (origin b) ;;
  origin_arr <- mapM (fun p => Py.of_option IndexError (Np.get og p))
                     nod_pat_pos ;;
  Ok (map (fun r =>
             let '(info, (z, (s, o))) := r in
             {| nod_bias := (inject_Z z, 0%Q, 0%Q);
                nod_origin := o;
                nod_spacing := s;
                nod_center := snd (fst info);
                nod_size := snd info;
                nod_img_size := v3map inject_Z (snd (fst (fst info))) |})
          (combine infos (combine bias0 (combine spacing_arr origin_arr))),
      nod_pat_pos).

(** [fetch_nodules_info]. *)
Definition fetch_nodules_info (nodules_df : list DfRow) (update : bool)
  : method unit :=
  fun b =>
    if (match nodules b with Some _ => true | None => false end) && negb update
    then (Ok tt, b)
    else
      match nodules_table b nodules_df with
      | Ok tp =>
          (Ok tt,
           {| indices := indices b; _data := _data b; _bounds := _bounds b;
              mask := mask b; nodules := Some (fst tp);
              nodules_pat_pos := Some (snd tp);
              spacing := spacing b; origin := origin b |})
      | Raise e => (Raise e, b)
      end.






(** [_post_rebuild]; [batch] is the batch that the parent's [_post_rebuild]
    returns and [data] the data it has gathered in it. *)
Definition _post_rebuild (self batch : Batch) (data : Np.ndarray3)
  : Py.result unit * Batch :=
  let batch1 :=
    {| indices := indices batch; _data := Some data; _bounds := _bounds batch;
       mask := Some (zeros_like data); nodules := nodules batch;
       nodules_pat_pos := nodules_pat_pos batch;
       spacing := spacing self; origin := origin self |} in
  match nodules self with
  | None => (Ok tt, batch1)
  | Some nods =>
      create_mask
        {| indices := indices batch1; _data := _data batch1;
           _bounds := _bounds batch1; mask := mask batch1;
           nodules := Some nods; nodules_pat_pos := nodules_pat_pos self;
           spacing := spacing batch1; origin := origin batch1 |}
  end.

(** The annotations of three nodules, one of them of a scan that is not in
    [two_scans]. *)
Definition annotations : list DfRow :=
  [ {| seriesuid := "B"; coordZ := 5; coordY := 1; coordX := 3;
       diameter_mm := 2 |};
    {| seriesuid := "C"; coordZ := 1; coordY := 1; coordX := 1;
       diameter_mm := 2 |};
    {| seriesuid := "A"; coordZ := 2; coordY := 2; coordX := 2;
       diameter_mm := 2 |} ]%Q%string.

(** The blobs that [dump] writes for the scan [id] at position [p]: one for
    every pair of a selector and a path, of the data or of the mask. *)
Definition scan_blobs (b : Batch) (d m : Np.ndarray3)
    (pairs : list (string * string)) (p : Z) (id : string) : list blob :=
  map (fun tp =>
         Blob (scan_at b (if String.eqb (fst tp) "source" then d else m) p)
              id (snd tp))
      pairs.

(** The patch of [size] pixels at [pos] lies in the array. *)
Definition in_bounds (data : Np.ndarray3) (size pos : vec3 Z) : Prop :=
  (0 <= ax0 pos /\ ax0 pos + ax0 size <= Np.shape0 data) /\
  (0 <= ax1 pos /\ ax1 pos + ax1 size <= Np.shape1 data) /\
  (0 <= ax2 pos /\ ax2 pos + ax2 size <= Np.shape2 data).

(** The position of the scan [id], 0 when the index does not have it. *)
Definition pos_of (b : Batch) (id : string) : Z :=
  match get_pos b id with
  | Ok p => p
  | Raise _ => 0
  end.

(** The row of the nodule table for the annotation [r], on a batch with the
    data [d], the spacing [sp] and the origin [og]. *)
Definition annotated (b : Batch) (d : Np.ndarray3) (sp og : list (vec3 Q))
    (r : DfRow) : Nodule :=
  let p := pos_of b (seriesuid r) in
  {| nod_bias := (inject_Z (nth (Z.to_nat p) (_bounds b) 0), 0%Q, 0%Q);
     nod_origin := nth (Z.to_nat p) og (0%Q, 0%Q, 0%Q);
     nod_spacing := nth (Z.to_nat p) sp (0%Q, 0%Q, 0%Q);
     nod_center := (coordZ r, coordY r, coordX r);
     nod_size := (diameter_mm r, diameter_mm r, diameter_mm r);
     nod_img_size := v3map inject_Z (Np.shape (scan_at b d p)) |}.

(** The annotation [r] is of a scan of the batch. *)
Definition of_batch (b : Batch) (r : DfRow) : bool :=
  existsb (String.eqb (seriesuid r)) (indices b).


(** * Properties *)

Unset Implicit Arguments.

(** The side conditions of a concrete set of draws. *)
Ltac draws_ok :=
  unfold sample_draws, random_draws, v3all, half3; simpl;
  repeat split; try reflexivity; try lia;
  repeat constructor; simpl; try lia; try (unfold Qle, Qlt; simpl; lia).

(** ** Lists, slices and indices *)

Lemma get_nth {A} (l : list A) (i : Z) (d : A) :
  0 <= i < Z.of_nat (length l) -> Np.get l i = Some (nth (Z.to_nat i) l d).
Proof.
  intros H. unfold Np.get.
  replace (0 <=? i) with true by (symmetry; apply Z.leb_le; lia).
  replace (i <? Z.of_nat (length l)) with true by (symmetry; apply Z.ltb_lt; lia).
  simpl. apply nth_error_nth'. lia.
Qed.

Lemma get_pos_from_In (ids : list string) (i : Z) (id : string) :
  In id ids ->
  exists p, get_pos_from ids i id = Ok p /\ i <= p < i + Z.of_nat (length ids).
Proof.
  revert i. induction ids as [|h t IH]; intros i Hin; [destruct Hin|].
  simpl get_pos_from. destruct (String.eqb_spec h id) as [->|Hne].
  - exists i. split; [reflexivity | simpl length; lia].
  - destruct Hin as [Heq|Hin]; [congruence|].
    destruct (IH (i + 1) Hin) as (p & Hp & Hr).
    exists p. split; [exact Hp | simpl length; lia].
Qed.

(** ** get_mask *)

(** C8. For a batch of N scans (with its N+1 bounds and its mask buffer),
    [get_mask(p)] for an integer [p] raises [IndexError] exactly when [p] is
    negative or at least N, and otherwise returns the sub-volume
    [mask[bounds[p]:bounds[p+1], :, :]]. *)
Theorem get_mask_position (b : Batch) (m : Np.ndarray3) (p : Z) :
  skyscraper b ->
  mask b = Some m ->
  (get_mask b (Int p) = Raise IndexError <-> p < 0 \/ p >= n_scans b) /\
  (0 <= p < n_scans b ->
   get_mask b (Int p) =
   Ok (Np.slice0 m (nth (Z.to_nat p) (_bounds b) 0)
                   (nth (Z.to_nat (p + 1)) (_bounds b) 0))).
Proof.
  unfold skyscraper. intros Hsky Hm.
  assert (Hin : 0 <= p < n_scans b ->
                get_mask b (Int p) =
                Ok (Np.slice0 m (nth (Z.to_nat p) (_bounds b) 0)
                                (nth (Z.to_nat (p + 1)) (_bounds b) 0))).
  { intros Hp. unfold get_mask, scan_bounds, resolve_pos.
    replace (p <? Z.of_nat (length (_bounds b)) - 1) with true
      by (symmetry; apply Z.ltb_lt; lia).
    replace (p >=? 0) with true by (symmetry; apply Z.geb_le; lia).
    simpl. rewrite (get_nth (_bounds b) p 0) by lia.
    rewrite (get_nth (_bounds b) (p + 1) 0) by lia.
    simpl. rewrite Hm. reflexivity. }
  split; [split | exact Hin].
  - intros Hraise.
    destruct (Z_lt_dec p 0) as [|Hge]; [left; assumption|].
    destruct (Z_ge_dec p (n_scans b)) as [|Hlt]; [right; assumption|].
    rewrite Hin in Hraise by lia. discriminate.
  - intros Hout. unfold get_mask, scan_bounds, resolve_pos.
    destruct (Z.ltb_spec p (Z.of_nat (length (_bounds b)) - 1));
      destruct (Z.geb_spec p 0); simpl; try reflexivity; lia.
Qed.

Lemma get_mask_position_witness :
  skyscraper two_scans /\
  get_mask two_scans (Int 2) = Raise IndexError /\
  get_mask two_scans (Int 1) = Ok (Np.slice0 (zeros 10 4 4) 4 10).
Proof.
  assert (Hs : skyscraper two_scans) by reflexivity.
  destruct (get_mask_position two_scans (zeros 10 4 4) 2 Hs eq_refl)
    as [Hout _].
  destruct (get_mask_position two_scans (zeros 10 4 4) 1 Hs eq_refl)
    as [_ Hin].
  split; [exact Hs|]. split.
  - apply Hout. right. vm_compute. discriminate.
  - apply Hin. split; vm_compute; [discriminate | reflexivity].
Defined.

(** ** Missing nodule table *)

(** C7. Without a nodule table ([nodules] is [None]) both [create_mask] and
    [sample_nodules] raise [AttributeError] at once, and the batch after the
    call is the batch before it. *)
Theorem missing_nodules_raise (b : Batch) (batch_size : Z)
    (nodule_size : vec3 Z) (share : Q) (dr : Draws) :
  nodules b = None ->
  create_mask b = (Raise AttributeError, b) /\
  sample_nodules batch_size nodule_size share dr b = (Raise AttributeError, b).
Proof.
  intros Hn. unfold create_mask, sample_nodules. rewrite Hn. split; reflexivity.
Qed.

Lemma missing_nodules_raise_witness :
  create_mask no_nodules = (Raise AttributeError, no_nodules) /\
  sample_nodules 10 (4, 4, 4) (4 # 5)
    {| sample_indices := []; sampled_indices := []; rand := [];
       new_indices := [] |} no_nodules
  = (Raise AttributeError, no_nodules).
Proof.
  apply (missing_nodules_raise no_nodules). reflexivity.
Defined.

(** ** Parallel mask build *)

(** C6. Whatever the tasks returned, failures included, [_post_create_mask]
    raises nothing and returns the batch: the string under its [assert] is
    not empty, hence true. *)
Theorem post_create_mask_silent (A : Type) (list_of_res : list (Py.result A))
    (b : Batch) :
  _post_create_mask list_of_res b = (Ok tt, b).
Proof.
  unfold _post_create_mask. destruct (any_action_failed list_of_res); reflexivity.
Qed.

(** The task of scan position 2 raised: an action failed, the call returns. *)
Example post_create_mask_position_2 :
  let list_of_res := [Ok tt; Ok tt; Raise ValueError; Ok tt] in
  any_action_failed list_of_res = true /\
  _post_create_mask list_of_res two_scans = (Ok tt, two_scans).
Proof. split; reflexivity. Qed.

(** ** Dump *)

Lemma dump_types_chars (b : Batch) (lower upper : Z) (patient_id : string)
    (dtype dst : string) :
  dump_types b lower upper patient_id (combine (Py.chars dtype) (Py.chars dst))
  = (Ok tt, []).
Proof.
  revert dst. induction dtype as [|c t IH]; intros dst; [reflexivity|].
  destruct dst as [|c' t']; [reflexivity|].
  simpl. destruct (Ascii.eqb c "s"), (Ascii.eqb c "m"); apply IH.
Qed.

Lemma bounds_at_ok (b : Batch) (p : Z) :
  skyscraper b -> 0 <= p < n_scans b ->
  bounds_at b p = Ok (nth (Z.to_nat p) (_bounds b) 0,
                      nth (Z.to_nat (p + 1)) (_bounds b) 0).
Proof.
  unfold skyscraper, bounds_at. intros Hs Hp.
  rewrite (get_nth (_bounds b) p 0) by lia.
  rewrite (get_nth (_bounds b) (p + 1) 0) by lia.
  reflexivity.
Qed.

Lemma dump_loop_chars (b : Batch) (dst dtype : string) (ids : list string) :
  snd (dump_loop b (OneStr dst) (OneStr dtype) ids) = [] /\
  (skyscraper b -> incl ids (indices b) ->
   fst (dump_loop b (OneStr dst) (OneStr dtype) ids) = Ok tt).
Proof.
  induction ids as [|id rest [IHw IHr]]; [split; reflexivity|].
  simpl dump_loop.
  destruct (patient_pos <- get_pos b id ;; bounds_at b patient_pos)
    as [lu|e] eqn:Hlu.
  - simpl Py.iter. rewrite dump_types_chars. simpl. split; [exact IHw|].
    intros Hs Hincl. apply IHr; [exact Hs|].
    intros x Hx. apply Hincl. right. exact Hx.
  - split; [reflexivity|]. intros Hs Hincl. exfalso.
    destruct (get_pos_from_In (indices b) 0 id) as (p & Hp & Hr).
    { apply Hincl. left. reflexivity. }
    unfold get_pos in Hlu. rewrite Hp in Hlu. simpl in Hlu.
    rewrite bounds_at_ok in Hlu; [discriminate | exact Hs |].
    unfold n_scans. lia.
Qed.

(** C10. [dump] with [dtype] and [dst] both plain strings writes no blob, for
    any batch: [zip(dtype, dst)] pairs the characters of the two strings and
    no character is ['source'] or ['mask']. On a batch with its N+1 bounds the
    call returns normally, so every scan is skipped in silence. *)
Theorem dump_strings_write_nothing (b : Batch) (dst dtype : string) :
  snd (dump b (OneStr dst) (OneStr dtype)) = [] /\
  (skyscraper b -> fst (dump b (OneStr dst) (OneStr dtype)) = Ok tt).
Proof.
  unfold dump. simpl dump_check.
  destruct (dump_loop_chars b dst dtype (indices b)) as [Hw Hr].
  split; [exact Hw|].
  intros Hs. apply Hr; [exact Hs | apply incl_refl].
Qed.

Lemma dump_strings_write_nothing_witness :
  dump two_scans (OneStr "./data/blosc_preprocessed") (OneStr "source")
  = (Ok tt, []).
Proof.
  destruct (dump_strings_write_nothing two_scans
              "./data/blosc_preprocessed" "source") as [Hw Hr].
  rewrite (surjective_pairing (dump _ _ _)).
  rewrite Hw, Hr; reflexivity.
Defined.

(** With the selector in a list, as the checks of [dump] expect it, the same
    call writes one blob per scan. *)
Example dump_list_writes :
  length (snd (dump two_scans (Seq ["./data/blosc_preprocessed"%string])
                 (Seq ["source"%string]))) = 2%nat.
Proof. reflexivity. Qed.

(** ** Patch sampler: how many patches of each kind *)

Lemma mapM_length {A B} (f : A -> Py.result B) (l : list A) (l' : list B) :
  mapM f l = Ok l' -> length l' = length l.
Proof.
  revert l'. induction l as [|a t IH]; intros l' H; simpl in H.
  - injection H as <-. reflexivity.
  - destruct (f a) as [x|e]; [|discriminate]. simpl in H.
    destruct (mapM f t) as [xs|e]; [|discriminate]. simpl in H.
    injection H as <-. simpl. f_equal. apply IH. reflexivity.
Qed.

Lemma mapM_map {A B} (f : A -> Py.result B) (g : A -> B) (l : list A) :
  Forall (fun a => f a = Ok (g a)) l -> mapM f l = Ok (map g l).
Proof.
  induction 1 as [|a t Ha _ IH]; [reflexivity|].
  simpl. rewrite Ha. simpl. rewrite IH. reflexivity.
Qed.

Lemma cancer_n_min (share : Q) (batch_size n_nodules : Z) :
  cancer_n share batch_size n_nodules
  = Z.min (Np.astype_int (share * inject_Z batch_size)) n_nodules.
Proof.
  unfold cancer_n. rewrite Z.gtb_ltb.
  destruct (Z.ltb_spec n_nodules (Np.astype_int (share * inject_Z batch_size)));
    lia.
Qed.

Lemma astype_int_nonneg (q : Q) : (0 <= q)%Q -> Np.astype_int q = Qfloor q.
Proof.
  intros H. unfold Np.astype_int.
  rewrite (proj2 (Qle_bool_iff 0 q) H). reflexivity.
Qed.


Lemma sample_random_nodules_ok (b : Batch) (d : Np.ndarray3) (n_nodules : Z)
    (nodule_size : vec3 Z) (si : list Z) (rnd : list (vec3 Q)) :
  skyscraper b -> _data b = Some d -> 0 <= n_nodules ->
  random_draws b n_nodules si rnd ->
  sample_random_nodules b n_nodules nodule_size si rnd
  = Ok (map (fun iu =>
               random_start d nodule_size
                 (nth (Z.to_nat (fst iu)) (_bounds b) 0,
                  nth (Z.to_nat (fst iu + 1)) (_bounds b) 0) (snd iu))
            (combine si rnd)).
Proof.
  intros Hs Hd Hn (Hlsi & Hlr & Hsi & _). unfold sample_random_nodules.
  destruct (Z.ltb_spec n_nodules 0); [lia|].
  assert (Hne : (n_scans b =? 0) && (0 <? n_nodules) = false).
  { destruct (Z.ltb_spec 0 n_nodules); [|apply andb_false_r].
    destruct si as [|i si']; [simpl in Hlsi; lia|].
    inversion Hsi as [|? ? Hi _]; subst.
    destruct (Z.eqb_spec (n_scans b) 0); [lia | reflexivity]. }
  rewrite Hne.
  rewrite (mapM_map (bounds_at b)
             (fun i => (nth (Z.to_nat i) (_bounds b) 0,
                        nth (Z.to_nat (i + 1)) (_bounds b) 0))).
  2:{ eapply Forall_impl; [|exact Hsi]. intros i Hi.
      apply bounds_at_ok; assumption. }
  simpl. rewrite Hd. simpl. f_equal.
  clear. revert rnd. induction si as [|i t IH]; intros [|u r]; simpl;
    try reflexivity.
  f_equal. apply IH.
Qed.




(** ** Patch sampler: the batch of patches *)

Lemma stretch_length {A} (d : A) (n : Z) (l : list A) :
  0 <= n -> length (stretch d n l) = Z.to_nat n.
Proof.
  intros Hn. unfold stretch.
  destruct (Z.eqb_spec (Z.of_nat (length l)) n); [lia | apply repeat_length].
Qed.

Lemma patches_length (data : Np.ndarray3) (size : vec3 Z)
    (positions : list (vec3 Z)) :
  0 <= ax0 size ->
  Z.of_nat (length (concat (map (fun pos => patch data pos size) positions)))
  = Z.of_nat (length positions) * ax0 size.
Proof.
  intros Hs. induction positions as [|pos t IH]; [reflexivity|].
  simpl map. simpl concat. rewrite length_app. unfold patch at 1.
  rewrite stretch_length by exact Hs. simpl length. lia.
Qed.

Lemma get_nodules_jit_shape (data a : Np.ndarray3) (positions : list (vec3 Z))
    (size : vec3 Z) :
  get_nodules_jit data positions size = Ok a ->
  0 <= ax0 size /\
  Np.shape a = (Z.of_nat (length positions) * ax0 size, ax1 size, ax2 size).
Proof.
  unfold get_nodules_jit. intros H.
  destruct (Z.ltb_spec (ax0 size) 0) as [|H0]; [discriminate|].
  destruct ((false || (ax1 size <? 0)) || (ax2 size <? 0)); [discriminate|].
  destruct (forallb _ positions); [|discriminate].
  injection H as <-. split; [exact H0|].
  unfold Np.shape, Np.shape0. simpl.
  rewrite patches_length by exact H0. reflexivity.
Qed.

Lemma arange_times_last (n k d : Z) :
  0 <= n -> last (arange_times (n + 1) k) d = n * k.
Proof.
  intros Hn. unfold arange_times.
  replace (Z.to_nat (n + 1)) with (S (Z.to_nat n)) by lia.
  rewrite seq_S, map_app. simpl. rewrite last_last.
  rewrite Z2Nat.id by exact Hn. reflexivity.
Qed.

Lemma nodules_indices_length (b : Batch) (pp : list Z) (batch_size : Z)
    (nodule_size : vec3 Z) (share : Q) (dr : Draws)
    (cancer random : list (vec3 Z)) :
  nodules_pat_pos b = Some pp ->
  (0 <= share)%Q -> 0 <= batch_size ->
  sample_draws b batch_size (Z.of_nat (length pp)) share dr ->
  nodules_indices b batch_size nodule_size share dr = Ok (cancer, random) ->
  Z.of_nat (length cancer) + Z.of_nat (length random) = batch_size.
Proof.
  intros Hpp H0 Hb Hdr. destruct dr as [sidx sampled rnd ids].
  unfold sample_draws in Hdr.
  cbn [sample_indices sampled_indices rand new_indices] in *.
  destruct Hdr as (Hk & _ & Hrange & (Hlsi & Hlr & _) & _).
  unfold nodules_indices. rewrite Hpp.
  cbn [sample_indices sampled_indices rand new_indices].
  destruct (nodules b) as [nods|]; [|discriminate]. simpl.
  set (k := cancer_n share batch_size (Z.of_nat (length pp))) in *.
  intros H.
  destruct (if Z.of_nat (length pp) =? 0 then Ok []
            else if k <? 0 then Raise ValueError
            else mapM (fun i => Py.of_option IndexError
                         (Np.get (_shift_out_of_bounds nodule_size nods) i))
                      sidx) as [c|e] eqn:Hc; [|discriminate].
  simpl in H.
  destruct (sample_random_nodules b (batch_size - k) nodule_size sampled rnd)
    as [r|e] eqn:Hr; [|discriminate].
  simpl in H. injection H as <- <-. rewrite length_map.
  assert (Hlr' : Z.of_nat (length r) = batch_size - k).
  { unfold sample_random_nodules in Hr.
    destruct (batch_size - k <? 0); [discriminate|].
    destruct ((n_scans b =? 0) && (0 <? batch_size - k)); [discriminate|].
    destruct (mapM (bounds_at b) sampled) as [lohi|e] eqn:Hm; [|discriminate].
    simpl in Hr. destruct (_data b); [|discriminate]. simpl in Hr.
    injection Hr as <-. apply mapM_length in Hm.
    rewrite length_map, length_combine. lia. }
  assert (Hlc : Z.of_nat (length c) = k).
  { destruct (Z.eqb_spec (Z.of_nat (length pp)) 0) as [Hz|Hnz].
    - injection Hc as <-. unfold k. rewrite cancer_n_min, Hz.
      assert (0 <= Np.astype_int (share * inject_Z batch_size)); [|simpl; lia].
      assert (Hq : (0 <= share * inject_Z batch_size)%Q).
      { apply Qmult_le_0_compat; [exact H0|].
        change (inject_Z 0 <= inject_Z batch_size)%Q.
        rewrite <- Zle_Qle. exact Hb. }
      rewrite astype_int_nonneg by exact Hq.
      change 0 with (Qfloor 0). apply Qfloor_resp_le. exact Hq.
    - destruct (k <? 0); [discriminate|].
      apply mapM_length in Hc. rewrite Hc. apply Hk. exact Hnz. }
  lia.
Qed.

(** C1, as the code has it. When [sample_nodules] succeeds, the new batch has
    [batch_size] scans, data of [batch_size * nodule_size[0]] planes, no
    nodule table, origin or spacing, and its bounds are
    [np.arange(data.shape[0] + 1) * nodule_size[0]]: one bound per plane of
    the data, not per patch, the last of them
    [data.shape[0] * nodule_size[0]]. *)
Theorem sample_nodules_bounds (b nb : Batch) (pp : list Z) (batch_size : Z)
    (nodule_size : vec3 Z) (share : Q) (dr : Draws) :
  nodules_pat_pos b = Some pp ->
  (0 <= share)%Q ->
  sample_draws b batch_size (Z.of_nat (length pp)) share dr ->
  fst (sample_nodules batch_size nodule_size share dr b) = Ok nb ->
  exists data,
    _data nb = Some data /\
    Np.shape0 data = batch_size * ax0 nodule_size /\
    _bounds nb
    = arange_times (batch_size * ax0 nodule_size + 1) (ax0 nodule_size) /\
    last (_bounds nb) 0 = Np.shape0 data * ax0 nodule_size /\
    n_scans nb = batch_size /\
    nodules nb = None /\ origin nb = None /\ spacing nb = None.
Proof.
  intros Hpp H0 Hdr. unfold sample_nodules. simpl fst.
  destruct (nodules b) as [nods|]; [|discriminate].
  destruct (nodules_indices b batch_size nodule_size share dr)
    as [[cancer random]|e] eqn:Hni; [|discriminate].
  simpl. destruct (_data b) as [src|]; [|discriminate]. simpl.
  destruct (get_nodules_jit src (cancer ++ random) nodule_size)
    as [data|e] eqn:Hdata; [|discriminate].
  simpl. destruct (mask b) as [msk|]; [|discriminate]. simpl.
  destruct (get_nodules_jit msk (cancer ++ random) nodule_size)
    as [mk|e]; [|discriminate].
  simpl. destruct (Z.ltb_spec batch_size 0) as [|Hb]; [discriminate|].
  intros H. injection H as <-. simpl.
  apply get_nodules_jit_shape in Hdata. destruct Hdata as [Hs0 Hshape].
  injection Hshape as Hsh0 _ _.
  pose proof (nodules_indices_length b pp batch_size nodule_size share dr
                cancer random Hpp H0 Hb Hdr Hni) as Hlen.
  rewrite length_app, Nat2Z.inj_add, Hlen in Hsh0.
  exists data. rewrite Hsh0.
  repeat split; try reflexivity.
  - apply arange_times_last. nia.
  - destruct Hdr as (_ & _ & _ & _ & Hids). exact Hids.
Qed.

(** On [two_scans], two patches of two planes: the data has 4 planes, the
    2 scans get 5 bounds and the last bound is 8. *)
Lemma sample_nodules_bounds_witness :
  exists nb data,
    fst (sample_nodules 2 (2, 2, 2) (1 # 2) one_one_draws two_scans) = Ok nb /\
    _data nb = Some data /\
    Np.shape0 data = 4 /\
    _bounds nb = [0; 2; 4; 6; 8] /\
    last (_bounds nb) 0 = 8 /\
    n_scans nb = 2.
Proof.
  destruct (fst (sample_nodules 2 (2, 2, 2) (1 # 2) one_one_draws two_scans))
    as [nb|e] eqn:Hrun; [|vm_compute in Hrun; discriminate Hrun].
  destruct (sample_nodules_bounds two_scans nb [0; 1] 2 (2, 2, 2) (1 # 2)
              one_one_draws)
    as (data & Hd & Hs & Hb & Hl & Hn & _); try exact Hrun; try reflexivity.
  - unfold Qle; simpl; lia.
  - draws_ok.
  - exists nb, data. rewrite Hl, Hs.
    repeat split; try assumption; reflexivity.
Defined.

(** ** Patch sampler: random start pixels *)

Lemma random_start_z (data : Np.ndarray3) (nodule_size : vec3 Z) (lo hi : Z)
    (u : vec3 Q) :
  lo <= hi -> 0 <= ax0 nodule_size -> (0 <= ax0 u)%Q ->
  (ax0 (random_start data nodule_size (lo, hi) u) <= inject_Z lo)%Q.
Proof.
  destruct u as [[u0 u1] u2]. destruct nodule_size as [[s0 s1] s2].
  unfold random_start, ax0. simpl. intros Hlh Hs Hu.
  assert (Hx : (inject_Z (lo - hi - s0) <= 0)%Q).
  { change 0%Q with (inject_Z 0). rewrite <- Zle_Qle. lia. }
  assert (Hm : (0 <= u0 * - inject_Z (lo - hi - s0))%Q).
  { apply Qmult_le_0_compat; [exact Hu | lra]. }
  lra.
Qed.

(** C2, as the code has it. [shape_z] is [bounds[i] - bounds[i + 1]], the
    depth of the scan with the sign reversed, so the z coordinate drawn for
    scan [i] is [bounds[i] - u * (depth + nodule_size[0])]: at or below the
    first plane of the scan, hence in
    [[bias, bias + depth - nodule_size[0])] at its first point at most. *)
Theorem sample_random_nodules_z_below_scan (b : Batch) (d : Np.ndarray3)
    (n_nodules : Z) (nodule_size : vec3 Z) (si : list Z) (rnd : list (vec3 Q)) :
  skyscraper b -> nondecreasing b -> _data b = Some d ->
  0 <= n_nodules -> 0 <= ax0 nodule_size ->
  random_draws b n_nodules si rnd ->
  exists starts,
    sample_random_nodules b n_nodules nodule_size si rnd = Ok starts /\
    Forall2 (fun i r => (ax0 r <= inject_Z (nth (Z.to_nat i) (_bounds b) 0%Z))%Q)
            si starts.
Proof.
  intros Hs Hmono Hd Hn Hsz Hdr.
  rewrite (sample_random_nodules_ok b d n_nodules nodule_size si rnd Hs Hd Hn Hdr).
  eexists. split; [reflexivity|].
  destruct Hdr as (Hlsi & Hlr & Hsi & Hu).
  assert (Hlen : length si = length rnd) by lia.
  clear Hlsi Hlr. revert rnd Hlen Hu.
  induction Hsi as [|i t Hi _ IH]; intros [|u r] Hlen Hu;
    try discriminate; simpl; constructor.
  - inversion Hu as [|? ? (Hu0 & _) _]; subst.
    apply random_start_z; [apply Hmono; exact Hi | exact Hsz | apply Hu0].
  - apply IH; [simpl in Hlen; lia | inversion Hu; assumption].
Qed.

Lemma sample_random_nodules_z_below_scan_witness :
  exists starts,
    sample_random_nodules two_scans 1 (2, 2, 2) [1] [half3] = Ok starts /\
    Forall2 (fun i r => (ax0 r <= inject_Z (nth (Z.to_nat i) [0; 4; 10]%Z 0%Z))%Q)
            [1] starts.
Proof.
  apply (sample_random_nodules_z_below_scan two_scans (zeros 10 4 4) 1
           (2, 2, 2) [1] [half3]);
    try reflexivity; try (simpl; lia); try (unfold ax0; simpl; lia).
  - intros p Hp. assert (p = 0 \/ p = 1) as [-> | ->] by (unfold n_scans in Hp; simpl in Hp; lia);
      simpl; lia.
  - draws_ok.
Defined.

(** The scan at position 1 of [two_scans] has the planes 4 to 9; with the
    draw 0.5 on every axis the patch of 2 planes drawn for it starts at
    plane [4 - 0.5 * (6 + 2) = 0], in the scan at position 0. *)
Example sample_random_nodules_leaves_scan :
  exists z, sample_random_nodules two_scans 1 (2, 2, 2) [1] [half3]
            = Ok [(z, (2 # 2)%Q, (2 # 2)%Q)] /\
            (z == 0)%Q /\ ~ (inject_Z 4 <= z)%Q.
Proof.
  eexists. split; [vm_compute; reflexivity|].
  split; [reflexivity | unfold Qle; simpl; lia].
Qed.

(** ** Patch sampler: start pixels of the annotated nodules *)









Example shift_out_of_bounds_corner :
  _shift_out_of_bounds (2, 2, 2) [corner_nodule] = [(4, 2, 1)].
Proof. reflexivity. Qed.

(** The scenario of the specification: a scan of shape (100, 50, 50) with
    unit spacing and a nodule centred at (50, 25, 25); patches of 10. *)
Example shift_out_of_bounds_centre :
  _shift_out_of_bounds (10, 10, 10)
    [unit_nodule 0 (50%Q, 25%Q, 25%Q) 10%Q (100, 50, 50)]
  = [(45, 20, 20)].
Proof. reflexivity. Qed.

(** ** Resize: spacing and nodule table *)

Lemma get_pos_from_app (pre rest : list string) (id : string) (i : Z) :
  NoDup (pre ++ id :: rest) ->
  get_pos_from (pre ++ id :: rest) i id = Ok (i + Z.of_nat (length pre)).
Proof.
  revert i. induction pre as [|h t IH]; intros i Hnd; simpl.
  - rewrite String.eqb_refl. f_equal. lia.
  - inversion Hnd as [|? ? Hnotin Hnd']; subst.
    destruct (String.eqb_spec h id) as [->|_].
    + exfalso. apply Hnotin. apply in_or_app. right. left. reflexivity.
    + rewrite IH by exact Hnd'. f_equal. lia.
Qed.

Lemma update_app {A} (done todo : list A) (a : A) (f : A -> A) :
  update (done ++ a :: todo) (length done) f = done ++ f a :: todo.
Proof.
  induction done as [|h t IH]; simpl; [reflexivity | rewrite IH; reflexivity].
Qed.

Lemma imap_from_length {A B} (f : Z -> A -> B) (i : Z) (l : list A) :
  length (imap_from f i l) = length l.
Proof.
  revert i. induction l as [|a t IH]; intros i; simpl; [|rewrite IH]; reflexivity.
Qed.

Lemma imap_from_nth {A B} (f : Z -> A -> B) (i : Z) (l : list A) (k : nat)
    (da : A) (db : B) :
  (k < length l)%nat ->
  nth k (imap_from f i l) db = f (i + Z.of_nat k) (nth k l da).
Proof.
  revert i k. induction l as [|a t IH]; intros i k Hk; simpl in Hk; [lia|].
  destruct k as [|k]; simpl.
  - f_equal. lia.
  - rewrite IH by lia. f_equal. lia.
Qed.

Section RescaleLoop.

Variables (b : Batch) (d : Np.ndarray3) (new_shape : vec3 Z).
Hypothesis Hsky : skyscraper b.
Hypothesis Hnodup : NoDup (indices b).
Hypothesis Hdata : _data b = Some d.

(** The scans of [pre] are done, those of [rest] are to do. *)
Lemma rescale_loop_spec (rest pre : list string) (done todo : list (vec3 Q)) :
  indices b = pre ++ rest ->
  length done = length pre -> length todo = length rest ->
  rescale_loop new_shape rest (set_spacing b (done ++ todo))
  = (Ok tt,
     set_spacing b
       (done ++ imap_from (rescaled b d new_shape) (Z.of_nat (length pre)) todo)).
Proof.
  revert pre done todo.
  induction rest as [|id rest IH]; intros pre done todo Hids Hld Hlt.
  - destruct todo; [reflexivity | discriminate].
  - destruct todo as [|s todo]; [discriminate|].
    simpl rescale_loop.
    assert (Hpos : get_pos (set_spacing b (done ++ s :: todo)) id
                   = Ok (Z.of_nat (length pre))).
    { unfold get_pos. simpl indices. rewrite Hids.
      rewrite get_pos_from_app by (rewrite <- Hids; exact Hnodup).
      reflexivity. }
    assert (Hk : 0 <= Z.of_nat (length pre) < n_scans b).
    { unfold n_scans. rewrite Hids, length_app. simpl length. lia. }
    unfold get_image, scan_bounds, resolve_pos. rewrite Hpos.
    cbn [Py.bind _bounds set_spacing _data spacing].
    pose proof Hsky as Hs. unfold skyscraper in Hs.
    rewrite (get_nth (_bounds b) (Z.of_nat (length pre)) 0) by lia.
    rewrite (get_nth (_bounds b) (Z.of_nat (length pre) + 1) 0) by lia.
    rewrite Hdata. cbn [Py.bind Py.of_option fst snd]. unfold modify.
    replace (0 <=? Z.of_nat (length pre)) with true
      by (symmetry; apply Z.leb_le; lia).
    replace (Z.of_nat (length pre) <? Z.of_nat (length (done ++ s :: todo)))
      with true
      by (symmetry; apply Z.ltb_lt; rewrite length_app; simpl length; lia).
    cbn [andb]. rewrite Nat2Z.id, <- Hld, update_app.
    change (set_spacing (set_spacing b (done ++ s :: todo)) ?x)
      with (set_spacing b x).
    match goal with
    | |- context [done ++ ?x :: todo] =>
        replace (done ++ x :: todo) with ((done ++ [x]) ++ todo)
          by (rewrite <- app_assoc; reflexivity)
    end.
    rewrite (IH (pre ++ [id])).
    + rewrite <- app_assoc. simpl. rewrite length_app, Hld. simpl length.
      unfold rescaled at 2, scan_at.
      replace (Z.of_nat (length pre + 1)) with (Z.of_nat (length pre) + 1) by lia.
      rewrite ?Nat2Z.id. reflexivity.
    + rewrite <- app_assoc. exact Hids.
    + rewrite !length_app. simpl. lia.
    + simpl in Hlt. lia.
Qed.

End RescaleLoop.

Lemma arange_times_length (n k : Z) : length (arange_times n k) = Z.to_nat n.
Proof. unfold arange_times. rewrite length_map, length_seq. reflexivity. Qed.

Lemma arange_times_nth (n k p : Z) :
  0 <= p < n -> nth (Z.to_nat p) (arange_times n k) 0 = p * k.
Proof.
  intros Hp. unfold arange_times.
  change 0 with ((fun i => Z.of_nat i * k) 0%nat) at 1.
  rewrite map_nth, seq_nth by lia. simpl. rewrite Z2Nat.id by lia. reflexivity.
Qed.

Lemma rescale_nodules_spec (b : Batch) (new_shape : vec3 Z)
    (sp : list (vec3 Q)) (nods : list Nodule) (pp : list Z) :
  spacing b = Some sp -> nodules_pat_pos b = Some pp ->
  Z.of_nat (length sp) = n_scans b ->
  length nods = length pp ->
  Forall (fun p => 0 <= p < n_scans b) pp ->
  rescale_nodules new_shape b nods
  = (Ok tt,
     map (fun r => rewritten (n_scans b) new_shape sp (fst r) (snd r))
         (combine nods pp)).
Proof.
  intros Hsp Hpp Hlsp Hlen Hrange.
  unfold rescale_nodules, nodule_spacings. rewrite Hpp, Hsp. simpl.
  rewrite (mapM_map _ (fun p => nth (Z.to_nat p) sp (0%Q, 0%Q, 0%Q))).
  2:{ eapply Forall_impl; [|exact Hrange]. intros p Hp. cbv beta in Hp.
      rewrite (get_nth sp p (0%Q, 0%Q, 0%Q)) by lia. reflexivity. }
  simpl. rewrite Hlen, Nat.eqb_refl.
  rewrite (mapM_map _ (fun p => nth (Z.to_nat p)
                         (arange_times (n_scans b) (ax0 new_shape)) 0)).
  2:{ eapply Forall_impl; [|exact Hrange]. intros p Hp. cbv beta in Hp.
      rewrite (get_nth (arange_times (n_scans b) (ax0 new_shape)) p 0);
        [reflexivity|].
      rewrite arange_times_length. unfold n_scans in *. lia. }
  f_equal. clear Hpp Hsp Hlsp. revert pp Hlen Hrange.
  induction nods as [|nd nods IH]; intros [|p pp] Hlen Hrange;
    try discriminate; [reflexivity|].
  inversion Hrange as [|? ? Hp Hrange']; subst.
  simpl. f_equal.
  - unfold rewritten, resized_bounds. simpl.
    rewrite !arange_times_nth by lia. reflexivity.
  - apply IH; [simpl in Hlen; lia | exact Hrange'].
Qed.





(** ** Mask engine: marking voxels *)

Lemma imap_from_ext {A B} (f g : Z -> A -> B) (i : Z) (l : list A) :
  (forall k a, i <= k < i + Z.of_nat (length l) -> f k a = g k a) ->
  imap_from f i l = imap_from g i l.
Proof.
  revert i. induction l as [|a t IH]; intros i H; [reflexivity|].
  simpl. f_equal.
  - apply H. simpl length. lia.
  - apply IH. intros k a' Hk. apply H. simpl length. lia.
Qed.

Lemma imap_from_fuse {A B C} (f : Z -> B -> C) (g : Z -> A -> B) (i : Z)
    (l : list A) :
  imap_from f i (imap_from g i l) = imap_from (fun k a => f k (g k a)) i l.
Proof.
  revert i. induction l as [|a t IH]; intros i; [reflexivity|].
  simpl. rewrite IH. reflexivity.
Qed.

Lemma imap_from_app {A B} (f : Z -> A -> B) (i : Z) (l1 l2 : list A) :
  imap_from f i (l1 ++ l2)
  = imap_from f i l1 ++ imap_from f (i + Z.of_nat (length l1)) l2.
Proof.
  revert i. induction l1 as [|a t IH]; intros i.
  - simpl. rewrite Z.add_0_r. reflexivity.
  - simpl app. simpl imap_from. rewrite IH. simpl app. do 3 f_equal.
    simpl length. lia.
Qed.

Lemma imap_from_id {A} (f : Z -> A -> A) (i : Z) (l : list A) :
  (forall k a, i <= k < i + Z.of_nat (length l) -> f k a = a) ->
  imap_from f i l = l.
Proof.
  revert i. induction l as [|a t IH]; intros i H; [reflexivity|].
  simpl. f_equal.
  - apply H. simpl length. lia.
  - apply IH. intros k a' Hk. apply H. simpl length. lia.
Qed.

Lemma imap_from_shift {A B} (f : Z -> A -> B) (i d : Z) (l : list A) :
  imap_from f i l = imap_from (fun k => f (k - d)) (i + d) l.
Proof.
  revert i. induction l as [|a t IH]; intros i; [reflexivity|].
  simpl. f_equal.
  - f_equal. lia.
  - rewrite (IH (i + 1)). f_equal. lia.
Qed.

Lemma mark_from_ext (P R : Z -> Z -> Z -> bool) (z0 : Z)
    (pl : list (list (list Q))) :
  (forall z y x, z0 <= z < z0 + Z.of_nat (length pl) -> P z y x = R z y x) ->
  mark_from P z0 pl = mark_from R z0 pl.
Proof.
  intros H. unfold mark_from. apply imap_from_ext. intros z plane Hz.
  apply imap_from_ext. intros y row _. apply imap_from_ext. intros x v _.
  rewrite (H z y x Hz). reflexivity.
Qed.

Lemma mark_from_fuse (P R : Z -> Z -> Z -> bool) (z0 : Z)
    (pl : list (list (list Q))) :
  mark_from R z0 (mark_from P z0 pl)
  = mark_from (fun z y x => P z y x || R z y x) z0 pl.
Proof.
  unfold mark_from. rewrite imap_from_fuse.
  apply imap_from_ext. intros z plane _. rewrite imap_from_fuse.
  apply imap_from_ext. intros y row _. rewrite imap_from_fuse.
  apply imap_from_ext. intros x v _.
  destruct (P z y x), (R z y x); reflexivity.
Qed.

Lemma mark_from_none (P : Z -> Z -> Z -> bool) (z0 : Z)
    (pl : list (list (list Q))) :
  (forall z y x, z0 <= z < z0 + Z.of_nat (length pl) -> P z y x = false) ->
  mark_from P z0 pl = pl.
Proof.
  intros H. unfold mark_from. apply imap_from_id. intros z plane Hz.
  apply imap_from_id. intros y row _. apply imap_from_id. intros x v _.
  rewrite (H z y x Hz). reflexivity.
Qed.

Lemma mark_from_length (P : Z -> Z -> Z -> bool) (z0 : Z)
    (pl : list (list (list Q))) :
  length (mark_from P z0 pl) = length pl.
Proof. apply imap_from_length. Qed.

Lemma mark_from_app (P : Z -> Z -> Z -> bool) (z0 : Z)
    (l1 l2 : list (list (list Q))) :
  mark_from P z0 (l1 ++ l2)
  = mark_from P z0 l1 ++ mark_from P (z0 + Z.of_nat (length l1)) l2.
Proof. apply imap_from_app. Qed.

Lemma mark_from_shift (P : Z -> Z -> Z -> bool) (a : Z)
    (pl : list (list (list Q))) :
  mark_from P 0 pl = mark_from (fun z => P (z - a)) a pl.
Proof. unfold mark_from. rewrite (imap_from_shift _ 0 a). reflexivity. Qed.

Lemma make_mask_patient_boxes (pat_mask : list (list (list Q)))
    (start size : list (vec3 Z)) :
  make_mask_patient pat_mask start size = mark_from (boxes start size) 0 pat_mask.
Proof.
  revert pat_mask size. induction start as [|s start IH]; intros pm size.
  - simpl. symmetry. apply mark_from_none. reflexivity.
  - destruct size as [|d size].
    + simpl. symmetry. apply mark_from_none. reflexivity.
    + simpl make_mask_patient. rewrite IH, mark_from_fuse. reflexivity.
Qed.

Lemma clip_range (n i : Z) : 0 <= n -> 0 <= Np.clip n i <= n.
Proof. unfold Np.clip. lia. Qed.

Lemma slice_fits {A} (l : list A) (lo hi : Z) :
  (Np.slice_start (Z.of_nat (length l)) lo
   + Np.slice_len (Z.of_nat (length l)) lo hi <= length l)%nat.
Proof.
  unfold Np.slice_start, Np.slice_len.
  pose proof (clip_range (Z.of_nat (length l)) lo (Nat2Z.is_nonneg _)).
  pose proof (clip_range (Z.of_nat (length l)) hi (Nat2Z.is_nonneg _)).
  lia.
Qed.

(** Marking a view on the buffer marks the buffer. *)
Lemma set_slice_mark (P : Z -> Z -> Z -> bool) (l : list (list (list Q)))
    (lo hi : Z) :
  Np.set_slice l lo hi (mark_from P 0 (Np.slice l lo hi))
  = mark_from (in_view (Z.of_nat (length l)) lo hi P) 0 l.
Proof.
  unfold Np.set_slice, Np.slice, in_view.
  pose proof (slice_fits l lo hi) as Hfit.
  set (a := Np.slice_start (Z.of_nat (length l)) lo) in *.
  set (len := Np.slice_len (Z.of_nat (length l)) lo hi) in *.
  assert (Ha : length (firstn a l) = a) by (rewrite length_firstn; lia).
  assert (Hl : length (firstn len (skipn a l)) = len)
    by (rewrite length_firstn, length_skipn; lia).
  assert (Hdec : l = firstn a l ++ firstn len (skipn a l) ++ skipn (a + len) l).
  { rewrite <- (firstn_skipn a l) at 1. f_equal.
    rewrite <- (firstn_skipn len (skipn a l)) at 1. f_equal.
    rewrite skipn_skipn. f_equal. lia. }
  clearbody a len.
  remember (firstn a l) as l1 eqn:E1.
  remember (firstn len (skipn a l)) as l2 eqn:E2.
  remember (skipn (a + len) l) as l3 eqn:E3.
  clear E1 E2 E3. subst l.
  rewrite !mark_from_app, Ha, Hl. f_equal; [|f_equal].
  - symmetry. apply mark_from_none. intros z y x Hz. rewrite Ha in Hz.
    destruct (Z.leb_spec (Z.of_nat a) z); [lia | reflexivity].
  - rewrite (mark_from_shift P (Z.of_nat a)). apply mark_from_ext.
    intros z y x Hz. rewrite Hl in Hz. simpl in Hz.
    destruct (Z.leb_spec (Z.of_nat a) z); [|lia].
    destruct (Z.ltb_spec z (Z.of_nat a + Z.of_nat len)); [reflexivity | lia].
  - symmetry. apply mark_from_none. intros z y x Hz.
    destruct (Z.ltb_spec z (Z.of_nat a + Z.of_nat len)); [lia|].
    rewrite andb_false_r. reflexivity.
Qed.

(** ** Mask engine: building the mask twice *)

Lemma remark_none (P : Z -> Z -> Z -> bool) (b : Batch) :
  (forall z y x, P z y x = false) -> remark P b = b.
Proof.
  intros H. unfold remark. destruct (mask b) as [m|] eqn:Hm; [|reflexivity].
  rewrite mark_from_none by (intros; apply H).
  destruct b, m; simpl in *. rewrite Hm. reflexivity.
Qed.

Lemma remark_remark (P R : Z -> Z -> Z -> bool) (b : Batch) :
  remark R (remark P b) = remark (fun z y x => P z y x || R z y x) b.
Proof.
  unfold remark. destruct (mask b) as [m|] eqn:Hm; simpl.
  - rewrite mark_from_fuse. reflexivity.
  - rewrite Hm. reflexivity.
Qed.



Section MaskLoop.

(** The start pixels and the sizes of all nodules, as [create_mask] computes
    them before its loop. *)
Variables start size : list (vec3 Z).


(** One round of the loop of [create_mask] marks the voxels of [scan_marks]. *)
Lemma create_mask_scan_marks (patient_id : string) (b : Batch) :
  create_mask_scan start size patient_id b
  = (P <- scan_marks start size patient_id b ;; Ok (remark P b)).
Proof.
  unfold create_mask_scan, scan_marks.
  destruct (get_pos b patient_id) as [pos|e]; [|reflexivity]. simpl.
  destruct (existsb (fun x => x) (pat_pos_eq b pos)).
  - destruct (scan_bounds b (Str patient_id)) as [lu|e]; [|reflexivity]. simpl.
    destruct (mask b) as [m|] eqn:Hm; [|reflexivity]. simpl.
    destruct (select (pat_pos_eq b pos) start) as [st|e]; [|reflexivity]. simpl.
    destruct (select (pat_pos_eq b pos) size) as [sz|e]; [|reflexivity]. simpl.
    unfold remark. rewrite Hm.
    rewrite make_mask_patient_boxes, set_slice_mark. reflexivity.
  - simpl. rewrite remark_none by reflexivity. reflexivity.
Qed.

(** The loop only marks voxels. *)
Lemma create_mask_loop_marks (ids : list string) (b : Batch) :
  exists S, snd (create_mask_loop start size ids b) = remark S b.
Proof.
  revert b. induction ids as [|id rest IH]; intros b.
  - exists (fun _ _ _ => false). simpl. symmetry. apply remark_none. reflexivity.
  - simpl. rewrite create_mask_scan_marks.
    destruct (scan_marks start size id b) as [P|e]; simpl.
    + destruct (IH (remark P b)) as [S HS]. rewrite HS, remark_remark.
      eexists. reflexivity.
    + exists (fun _ _ _ => false). symmetry. apply remark_none. reflexivity.
Qed.


End MaskLoop.




(** The nodules of [two_scans] as voxels: 8 voxels of value 1 for each. *)
Example create_mask_two_scans :
  match mask (snd (create_mask two_scans)) with
  | Some m =>
      map (fun pl => length (filter (fun v => Qeq_bool v 1)
                               (concat pl))) (Np.planes m)
  | None => []
  end = [0; 4; 4; 0; 0; 0; 0; 0; 4; 4]%nat.
Proof. reflexivity. Qed.


(** * Further properties *)

(** ** Start pixels of the annotated nodules *)




(** ** Random start pixels *)

Lemma random_axis_inside (u : Q) (extent size : Z) :
  (0 <= u)%Q -> (u < 1)%Q -> size <= extent ->
  axis_inside (u * inject_Z (extent - size) + 0) (inject_Z size)
    (inject_Z extent).
Proof.
  intros H0 H1 Hs. unfold axis_inside.
  assert (Hk : (0 <= inject_Z (extent - size))%Q).
  { change 0%Q with (inject_Z 0). rewrite <- Zle_Qle. lia. }
  assert (Ha : (0 <= u * inject_Z (extent - size))%Q)
    by (apply Qmult_le_0_compat; assumption).
  assert (Hb : (0 <= (1 - u) * inject_Z (extent - size))%Q)
    by (apply Qmult_le_0_compat; [lra | assumption]).
  assert (He : (inject_Z (extent - size) == inject_Z extent - inject_Z size)%Q).
  { unfold Z.sub. rewrite inject_Z_plus, inject_Z_opp. reflexivity. }
  split; [lra|]. rewrite He in Ha, Hb |- *. lra.
Qed.

(** X2. On a batch whose planes are at least as large as the patch,
    [sample_random_nodules] returns [n_nodules] start pixels, and on the y
    and x axes each of them gives a patch inside the plane:
    [0 <= start] and [start + nodule_size <= extent]. *)
Theorem sample_random_nodules_yx_inside (b : Batch) (d : Np.ndarray3)
    (n_nodules : Z) (nodule_size : vec3 Z) (si : list Z) (rnd : list (vec3 Q)) :
  skyscraper b -> _data b = Some d -> 0 <= n_nodules ->
  random_draws b n_nodules si rnd ->
  ax1 nodule_size <= Np.shape1 d -> ax2 nodule_size <= Np.shape2 d ->
  exists starts,
    sample_random_nodules b n_nodules nodule_size si rnd = Ok starts /\
    Z.of_nat (length starts) = n_nodules /\
    Forall (fun r =>
              axis_inside (ax1 r) (inject_Z (ax1 nodule_size))
                (inject_Z (Np.shape1 d)) /\
              axis_inside (ax2 r) (inject_Z (ax2 nodule_size))
                (inject_Z (Np.shape2 d))) starts.
Proof.
  intros Hs Hd Hn Hdr H1 H2.
  rewrite (sample_random_nodules_ok b d n_nodules nodule_size si rnd Hs Hd Hn Hdr).
  eexists. split; [reflexivity|].
  destruct Hdr as (Hlsi & Hlr & _ & Hu).
  split; [rewrite length_map, length_combine; lia|].
  clear Hlsi Hlr. revert si. induction Hu as [|u r Hu0 _ IH]; intros si.
  - destruct si; constructor.
  - destruct si as [|i si]; [constructor|]. simpl. constructor; [|apply IH].
    destruct u as [[u0 u1] u2]. destruct nodule_size as [[s0 s1] s2].
    destruct Hu0 as (_ & (A1 & B1) & (A2 & B2)).
    unfold random_start, ax0, ax1, ax2 in *. simpl in *.
    split; apply random_axis_inside; assumption.
Qed.

Lemma sample_random_nodules_yx_inside_witness :
  exists starts,
    sample_random_nodules two_scans 1 (2, 2, 2) [1] [half3] = Ok starts /\
    Z.of_nat (length starts) = 1 /\
    Forall (fun r =>
              axis_inside (ax1 r) (inject_Z 2) (inject_Z 4) /\
              axis_inside (ax2 r) (inject_Z 2) (inject_Z 4)) starts.
Proof.
  apply (sample_random_nodules_yx_inside two_scans (zeros 10 4 4) 1 (2, 2, 2)
           [1] [half3]);
    try reflexivity; try (simpl; lia); try (unfold ax1, ax2; simpl; lia).
  draws_ok.
Defined.

(** ** The batch of patches *)

(** X3. In the batch that [sample_nodules] returns the mask has the shape of
    the data, [(number of patches * nodule_size[0], nodule_size[1],
    nodule_size[2])]: both are cut at the same start pixels. *)
Theorem sample_nodules_mask_like_data (b nb : Batch) (batch_size : Z)
    (nodule_size : vec3 Z) (share : Q) (dr : Draws) :
  fst (sample_nodules batch_size nodule_size share dr b) = Ok nb ->
  exists d m,
    _data nb = Some d /\ mask nb = Some m /\
    Np.shape m = Np.shape d /\
    Np.shape1 d = ax1 nodule_size /\ Np.shape2 d = ax2 nodule_size /\
    Np.shape0 d mod ax0 nodule_size = 0.
Proof.
  unfold sample_nodules. simpl fst.
  destruct (nodules b) as [nods|]; [|discriminate].
  destruct (nodules_indices b batch_size nodule_size share dr)
    as [[cancer random]|e]; [|discriminate].
  simpl. destruct (_data b) as [src|]; [|discriminate]. simpl.
  destruct (get_nodules_jit src (cancer ++ random) nodule_size)
    as [data|e] eqn:Hdata; [|discriminate].
  simpl. destruct (mask b) as [msk|]; [|discriminate]. simpl.
  destruct (get_nodules_jit msk (cancer ++ random) nodule_size)
    as [mk|e] eqn:Hmask; [|discriminate].
  simpl. destruct (batch_size <? 0); [discriminate|].
  intros H. injection H as <-. simpl.
  apply get_nodules_jit_shape in Hdata, Hmask.
  destruct Hdata as [_ Hd], Hmask as [_ Hm].
  exists data, mk. rewrite Hd, Hm.
  injection Hd as Hd0 Hd1 Hd2.
  repeat split; try assumption.
  rewrite Hd0. apply Z_mod_mult.
Qed.

Lemma sample_nodules_mask_like_data_witness :
  exists nb d m,
    fst (sample_nodules 2 (2, 2, 2) (1 # 2) one_one_draws two_scans) = Ok nb /\
    _data nb = Some d /\ mask nb = Some m /\ Np.shape m = Np.shape d.
Proof.
  destruct (fst (sample_nodules 2 (2, 2, 2) (1 # 2) one_one_draws two_scans))
    as [nb|e] eqn:Hrun; [|vm_compute in Hrun; discriminate Hrun].
  destruct (sample_nodules_mask_like_data two_scans nb 2 (2, 2, 2) (1 # 2)
              one_one_draws Hrun) as (d & m & Hd & Hm & Hs & _).
  exists nb, d, m. repeat split; assumption.
Defined.

(** X4. The share is not checked: when [int(share * batch_size)] and the
    number of nodules both exceed the batch size, [sample_nodules] asks
    [sample_random_nodules] for a negative number of patches and raises
    [ValueError]. *)
Theorem sample_nodules_share_over_one (b : Batch) (nods : list Nodule)
    (pp : list Z) (batch_size : Z) (nodule_size : vec3 Z) (share : Q)
    (dr : Draws) :
  nodules b = Some nods -> nodules_pat_pos b = Some pp ->
  length nods = length pp ->
  Forall (fun i => 0 <= i < Z.of_nat (length pp)) (sample_indices dr) ->
  batch_size < Np.astype_int (share * inject_Z batch_size) ->
  batch_size < Z.of_nat (length pp) ->
  sample_nodules batch_size nodule_size share dr b = (Raise ValueError, b).
Proof.
  intros Hn Hpp Hlen Hrange Hk Hnn.
  unfold sample_nodules, nodules_indices. rewrite Hn, Hpp. simpl.
  rewrite cancer_n_min.
  set (k := Z.min (Np.astype_int (share * inject_Z batch_size))
                  (Z.of_nat (length pp))).
  assert (Hbk : batch_size < k) by (unfold k; lia).
  assert (Hcancer : exists c,
    (if Z.of_nat (length pp) =? 0 then Ok []
     else if k <? 0 then Raise ValueError
     else mapM (fun i => Py.of_option IndexError
                  (Np.get (_shift_out_of_bounds nodule_size nods) i))
               (sample_indices dr)) = c /\
    (c = Raise ValueError \/ exists l, c = Ok l)).
  { eexists. split; [reflexivity|].
    destruct (Z.of_nat (length pp) =? 0); [right; eexists; reflexivity|].
    destruct (k <? 0); [left; reflexivity|]. right.
    rewrite (mapM_map _ (fun i => nth (Z.to_nat i)
                            (_shift_out_of_bounds nodule_size nods) (0, 0, 0))).
    - eexists. reflexivity.
    - eapply Forall_impl; [|exact Hrange]. intros i Hi. cbv beta in Hi.
      rewrite (get_nth _ i (0, 0, 0)); [reflexivity|].
      unfold _shift_out_of_bounds. rewrite length_map. lia. }
  destruct Hcancer as (c & -> & [-> | [l ->]]); [reflexivity|].
  simpl. unfold sample_random_nodules.
  destruct (Z.ltb_spec (batch_size - k) 0); [reflexivity | lia].
Qed.

(** A share of 2 for a batch of 1 on the two nodules of [two_scans]. *)
Lemma sample_nodules_share_over_one_witness :
  sample_nodules 1 (2, 2, 2) 2
    {| sample_indices := [0; 1]; sampled_indices := []; rand := [];
       new_indices := ["p0"%string] |} two_scans
  = (Raise ValueError, two_scans).
Proof.
  apply (sample_nodules_share_over_one two_scans
           [unit_nodule 0 (2%Q, 2%Q, 2%Q) 2%Q (4, 4, 4);
            unit_nodule 4 (5%Q, 1%Q, 3%Q) 2%Q (6, 4, 4)] [0; 1]);
    try reflexivity.
  repeat constructor; simpl; lia.
Defined.

(** ** Dump with a list of selectors *)

Lemma dump_types_selected (b : Batch) (d m : Np.ndarray3) (lower upper : Z)
    (patient_id : string) (pairs : list (string * string)) :
  _data b = Some d -> mask b = Some m ->
  Forall (fun tp => In (fst tp) dtype_values) pairs ->
  dump_types b lower upper patient_id pairs
  = (Ok tt,
     map (fun tp =>
            Blob (Np.slice0 (if String.eqb (fst tp) "source" then d else m)
                    lower upper) patient_id (snd tp)) pairs).
Proof.
  intros Hd Hm. induction 1 as [|[t path] rest Ht _ IH]; [reflexivity|].
  simpl dump_types. rewrite IH, Hd, Hm. simpl in Ht.
  destruct Ht as [<-|[<-|[]]]; reflexivity.
Qed.

Lemma dump_loop_selected (b : Batch) (d m : Np.ndarray3) (dst : Py.strs)
    (l : list string) (rest pre : list string) :
  skyscraper b -> NoDup (indices b) -> _data b = Some d -> mask b = Some m ->
  Forall (fun t => In t dtype_values) l ->
  indices b = pre ++ rest ->
  dump_loop b dst (Seq l) rest
  = (Ok tt,
     concat (imap_from (scan_blobs b d m (combine l (Py.iter dst)))
               (Z.of_nat (length pre)) rest)).
Proof.
  intros Hs Hnd Hd Hm Hl. revert pre.
  induction rest as [|id rest IH]; intros pre Hids; [reflexivity|].
  simpl dump_loop. unfold get_pos. rewrite Hids.
  rewrite get_pos_from_app by (rewrite <- Hids; exact Hnd). cbn [Py.bind].
  rewrite ?Z.add_0_l. rewrite bounds_at_ok;
    [|exact Hs | unfold n_scans; rewrite Hids, length_app; simpl length; lia].
  rewrite (dump_types_selected b d m); [|exact Hd | exact Hm |].
  2:{ generalize (Py.iter dst) as paths. clear - Hl.
      induction Hl as [|t l' Ht _ IHl]; intros [|pa paths]; simpl;
        constructor; [exact Ht | apply IHl]. }
  cbn [fst snd].
  rewrite (IH (pre ++ [id])) by (rewrite <- app_assoc; exact Hids).
  cbn [fst snd imap_from concat]. rewrite length_app. simpl length.
  replace (Z.of_nat (length pre + 1)) with (Z.of_nat (length pre) + 1) by lia.
  reflexivity.
Qed.

(** X5. With a list of selectors among ['source'] and ['mask'] and as many
    destinations, [dump] on a batch with its bounds, data and mask writes,
    scan after scan in the order of the index, one blob for every pair of a
    selector and a destination: the scan's slice of the data or of the mask,
    under the scan's identifier. Only the number of destinations is checked:
    a destination string of that length is read character by character. *)
Theorem dump_selected (b : Batch) (d m : Np.ndarray3) (dst : Py.strs)
    (l : list string) :
  skyscraper b -> NoDup (indices b) -> _data b = Some d -> mask b = Some m ->
  Forall (fun t => In t dtype_values) l ->
  Py.len dst = Z.of_nat (length l) ->
  dump b dst (Seq l)
  = (Ok tt,
     concat (imap_from (scan_blobs b d m (combine l (Py.iter dst))) 0
               (indices b))).
Proof.
  intros Hs Hnd Hd Hm Hl Hlen. unfold dump, dump_check.
  assert (Hin : existsb (fun dt => negb (existsb (String.eqb dt) dtype_values)) l
                = false).
  { apply not_true_is_false. intros E. apply existsb_exists in E.
    destruct E as (t & Ht & Hneg).
    rewrite Forall_forall in Hl. specialize (Hl t Ht).
    destruct Hl as [<-|[<-|[]]]; discriminate Hneg. }
  rewrite Hin. simpl Py.len at 1. rewrite Hlen, Z.eqb_refl. simpl negb.
  apply (dump_loop_selected b d m dst l (indices b) []); auto.
Qed.

Lemma dump_selected_witness :
  dump two_scans (OneStr "ab") (Seq ["source"; "mask"]%string)
  = (Ok tt,
     [Blob (Np.slice0 (zeros 10 4 4) 0 4) "A" "a";
      Blob (Np.slice0 (zeros 10 4 4) 0 4) "A" "b";
      Blob (Np.slice0 (zeros 10 4 4) 4 10) "B" "a";
      Blob (Np.slice0 (zeros 10 4 4) 4 10) "B" "b"]).
Proof.
  apply (dump_selected two_scans (zeros 10 4 4) (zeros 10 4 4) (OneStr "ab")
           ["source"; "mask"]%string); try reflexivity.
  - repeat constructor; simpl; intuition discriminate.
  - constructor; [left; reflexivity|].
    constructor; [right; left; reflexivity | constructor].
Defined.

(** X6. [dump] raises [ValueError] before it writes anything when [dtype] is
    a list with a selector other than ['source'] and ['mask'], when it is a
    list whose length is not that of [dst], and when [dtype] is a string
    and [dst] is not. *)
Theorem dump_invalid_arguments (b : Batch) (dst dtype : Py.strs) :
  (exists l, dtype = Seq l /\
             (Exists (fun dt => ~ In dt dtype_values) l \/
              Py.len dtype <> Py.len dst)) \/
  (exists s l, dtype = OneStr s /\ dst = Seq l) ->
  dump b dst dtype = (Raise ValueError, []).
Proof.
  intros [(l & -> & H) | (s & l & -> & ->)]; [|reflexivity].
  unfold dump, dump_check.
  destruct (existsb (fun dt => negb (existsb (String.eqb dt) dtype_values)) l)
    eqn:Hex; [reflexivity|].
  destruct H as [Hbad | Hlen].
  - exfalso. apply Exists_exists in Hbad. destruct Hbad as (dt & Hdt & Hnot).
    assert (Htrue : existsb (fun dt => negb (existsb (String.eqb dt) dtype_values)) l
                    = true).
    { apply existsb_exists. exists dt. split; [exact Hdt|].
      destruct (existsb (String.eqb dt) dtype_values) eqn:E; [|reflexivity].
      exfalso. apply Hnot. apply existsb_exists in E.
      destruct E as (x & Hx & Heq). apply String.eqb_eq in Heq. subst x.
      exact Hx. }
    congruence.
  - destruct (Z.eqb_spec (Py.len (Seq l)) (Py.len dst)); [contradiction|].
    reflexivity.
Qed.

Lemma dump_invalid_arguments_witness :
  dump two_scans (Seq ["./a"; "./b"]%string) (Seq ["source"]%string)
  = (Raise ValueError, []) /\
  dump two_scans (Seq ["./a"]%string) (Seq ["image"]%string)
  = (Raise ValueError, []) /\
  dump two_scans (Seq ["./a"]%string) (OneStr "source")
  = (Raise ValueError, []).
Proof.
  split; [|split]; apply dump_invalid_arguments.
  - left. eexists. split; [reflexivity|]. right. simpl. lia.
  - left. eexists. split; [reflexivity|]. left. constructor.
    simpl. intuition discriminate.
  - right. eexists _, _. split; reflexivity.
Defined.

(** ** Load *)

(** X7. [load] supports the formats ['raw'] and ['ndarray'] only. For any
    other format it raises before it touches the batch:
    [NotImplementedError] for ['dicom'], the default, and for ['blosc'],
    [TypeError] for the rest. *)
Theorem load_unsupported_format (_load_raw : method unit)
    (src : option Np.ndarray3) (fmt : string) (bounds : list Z)
    (og sp : option (list (vec3 Q))) (tbl : option (list Nodule)) (b : Batch) :
  fmt <> "raw"%string -> fmt <> "ndarray"%string ->
  load _load_raw src fmt bounds og sp tbl b
  = (Raise (if existsb (String.eqb fmt) ["dicom"; "blosc"]%string
            then NotImplementedError else TypeError), b).
Proof.
  intros Hraw Hnd. unfold load.
  destruct (String.eqb_spec fmt "raw"); [contradiction|].
  destruct (existsb (String.eqb fmt) ["dicom"; "blosc"]%string); [reflexivity|].
  destruct (String.eqb_spec fmt "ndarray"); [contradiction | reflexivity].
Qed.

Lemma load_unsupported_format_witness :
  load (fun b => (Ok tt, b)) None "dicom" [] None None None two_scans
  = (Raise NotImplementedError, two_scans) /\
  load (fun b => (Ok tt, b)) None "nifti" [] None None None two_scans
  = (Raise TypeError, two_scans).
Proof.
  split.
  - apply (load_unsupported_format (fun b => (Ok tt, b)) None "dicom");
      discriminate.
  - apply (load_unsupported_format (fun b => (Ok tt, b)) None "nifti");
      discriminate.
Defined.

Lemma create_mask_loop_no_positions (start size : list (vec3 Z))
    (ids : list string) (b : Batch) :
  nodules_pat_pos b = None -> incl ids (indices b) ->
  create_mask_loop start size ids b = (Ok tt, b).
Proof.
  intros Hpp. induction ids as [|id rest IH]; intros Hincl; [reflexivity|].
  simpl. unfold create_mask_scan.
  destruct (get_pos_from_In (indices b) 0 id) as (p & Hp & _).
  { apply Hincl. left. reflexivity. }
  unfold get_pos. rewrite Hp. simpl. unfold pat_pos_eq. rewrite Hpp. simpl.
  apply IH. intros x Hx. apply Hincl. right. exact Hx.
Qed.

(** X8. [load] with the format ['ndarray'] stores the nodule table it is
    given and leaves [nodules_pat_pos] as it is. On a batch where that is
    [None], as [__init__] leaves it, the loaded table cannot be used:
    [create_mask] returns without writing a voxel, the mask stays what it
    was, and [sample_nodules] raises [AttributeError]. *)
Theorem load_ndarray_table_unused (_load_raw : method unit)
    (src : option Np.ndarray3) (bounds : list Z)
    (og sp : option (list (vec3 Q))) (tbl : list Nodule) (b : Batch)
    (batch_size : Z) (nodule_size : vec3 Z) (share : Q) (dr : Draws) :
  nodules_pat_pos b = None ->
  exists b1,
    load _load_raw src "ndarray" bounds og sp (Some tbl) b = (Ok tt, b1) /\
    nodules b1 = Some tbl /\ mask b1 = mask b /\
    create_mask b1 = (Ok tt, b1) /\
    sample_nodules batch_size nodule_size share dr b1
    = (Raise AttributeError, b1).
Proof.
  intros Hpp. eexists. split; [reflexivity|].
  split; [reflexivity|]. split; [reflexivity|]. split.
  - unfold create_mask. cbn [nodules indices].
    apply create_mask_loop_no_positions; [exact Hpp | apply incl_refl].
  - unfold sample_nodules, nodules_indices. cbn [nodules nodules_pat_pos].
    rewrite Hpp. reflexivity.
Qed.

Lemma load_ndarray_table_unused_witness :
  exists b1,
    load (fun b => (Ok tt, b)) (Some (zeros 10 4 4)) "ndarray" [0; 4; 10]
      None None (Some [corner_nodule]) no_nodules = (Ok tt, b1) /\
    nodules b1 = Some [corner_nodule] /\ mask b1 = mask no_nodules /\
    create_mask b1 = (Ok tt, b1) /\
    sample_nodules 2 (2, 2, 2) (1 # 2) one_one_draws b1
    = (Raise AttributeError, b1).
Proof.
  apply (load_ndarray_table_unused (fun b => (Ok tt, b))). reflexivity.
Defined.

(** ** What the methods leave alone *)

Lemma rescale_loop_frame (new_shape : vec3 Z) (ids : list string) (b : Batch) :
  let b' := snd (rescale_loop new_shape ids b) in
  indices b' = indices b /\ _data b' = _data b /\ _bounds b' = _bounds b /\
  mask b' = mask b /\ origin b' = origin b /\
  nodules b' = nodules b /\ nodules_pat_pos b' = nodules_pat_pos b.
Proof.
  revert b. induction ids as [|id rest IH]; intros b; simpl.
  - repeat split; reflexivity.
  - destruct (img <- get_image b (Str id) ;; _) as [sp'|e]; simpl.
    + apply (IH (set_spacing b sp')).
    + repeat split; reflexivity.
Qed.

(** X9. [_rescale_spacing] changes the spacing of the batch and the nodule
    table and nothing else, also when it raises: the identifiers, the data,
    the bounds, the mask, the origin and [nodules_pat_pos] are those before
    the call. The bounds are thus the old ones while the bias of the nodules
    already follows the target shape, until the data is rebuilt. *)
Theorem rescale_spacing_frame (new_shape : vec3 Z) (b : Batch) :
  let b' := snd (_rescale_spacing new_shape b) in
  indices b' = indices b /\ _data b' = _data b /\ _bounds b' = _bounds b /\
  mask b' = mask b /\ origin b' = origin b /\
  nodules_pat_pos b' = nodules_pat_pos b.
Proof.
  unfold _rescale_spacing. destruct (spacing b); [|simpl; tauto].
  pose proof (rescale_loop_frame new_shape (indices b) b) as H.
  destruct (rescale_loop new_shape (indices b) b) as [[u|e] b1];
    simpl in H |- *; destruct H as (H1 & H2 & H3 & H4 & H5 & H6 & H7).
  - destruct (nodules b1) eqn:Hn; simpl; rewrite ?Hn;
      repeat split; try assumption; congruence.
  - repeat split; try assumption; congruence.
Qed.

Lemma remark_fields (P : Z -> Z -> Z -> bool) (b : Batch) :
  indices (remark P b) = indices b /\ _data (remark P b) = _data b /\
  _bounds (remark P b) = _bounds b /\ nodules (remark P b) = nodules b /\
  nodules_pat_pos (remark P b) = nodules_pat_pos b /\
  spacing (remark P b) = spacing b /\ origin (remark P b) = origin b /\
  option_map Np.shape (mask (remark P b)) = option_map Np.shape (mask b).
Proof.
  unfold remark. destruct (mask b) as [m|] eqn:Hm; simpl; rewrite ?Hm;
    repeat split; try reflexivity.
  simpl. unfold Np.shape, Np.shape0. simpl. rewrite mark_from_length.
  reflexivity.
Qed.

(** X10. [create_mask] writes into the mask and nowhere else, also when it
    raises on the way: identifiers, data, bounds, nodule table, spacing and
    origin are those before the call, and the mask keeps its shape (or stays
    [None]), so that it goes on matching the data scan by scan. *)
Theorem create_mask_frame (b : Batch) :
  let b' := snd (create_mask b) in
  indices b' = indices b /\ _data b' = _data b /\
  _bounds b' = _bounds b /\ nodules b' = nodules b /\
  nodules_pat_pos b' = nodules_pat_pos b /\
  spacing b' = spacing b /\ origin b' = origin b /\
  option_map Np.shape (mask b') = option_map Np.shape (mask b).
Proof.
  unfold create_mask. destruct (nodules b) as [nods|] eqn:Hn.
  - destruct (create_mask_loop_marks (map start_pix nods) (map size_pix nods)
                (indices b) b) as [S HS].
    cbv zeta. rewrite HS, <- Hn. apply remark_fields.
  - simpl. rewrite Hn. repeat split; reflexivity.
Qed.

(** ** The views on the scans *)

Lemma get_pos_from_nth (ids : list string) (i : Z) (k : nat) (d : string) :
  NoDup ids -> (k < length ids)%nat ->
  get_pos_from ids i (nth k ids d) = Ok (i + Z.of_nat k).
Proof.
  intros Hnd Hk.
  destruct (nth_split ids d Hk) as (pre & rest & Hids & Hlen).
  rewrite Hids at 1. rewrite get_pos_from_app by (rewrite <- Hids; exact Hnd).
  rewrite Hlen. reflexivity.
Qed.

Lemma get_mask_at (b : Batch) (m : Np.ndarray3) (p : Z) :
  skyscraper b -> mask b = Some m -> 0 <= p < n_scans b ->
  get_mask b (Int p) = Ok (scan_at b m p).
Proof.
  unfold skyscraper. intros Hs Hm Hp. unfold get_mask, scan_bounds, resolve_pos.
  replace (p <? Z.of_nat (length (_bounds b)) - 1) with true
    by (symmetry; apply Z.ltb_lt; lia).
  replace (p >=? 0) with true by (symmetry; apply Z.geb_le; lia).
  simpl. rewrite (get_nth (_bounds b) p 0) by lia.
  rewrite (get_nth (_bounds b) (p + 1) 0) by lia.
  simpl. rewrite Hm. reflexivity.
Qed.

(** X11. On a batch with its bounds and distinct identifiers, [get_mask]
    with the identifier of a scan and [get_mask] with the position of that
    scan give the same outcome. *)
Theorem get_mask_by_identifier (b : Batch) (p : Z) :
  skyscraper b -> NoDup (indices b) -> 0 <= p < n_scans b ->
  get_mask b (Str (nth (Z.to_nat p) (indices b) ""%string))
  = get_mask b (Int p).
Proof.
  unfold skyscraper. intros Hs Hnd Hp.
  unfold get_mask, scan_bounds, resolve_pos, get_pos.
  rewrite get_pos_from_nth by (exact Hnd || (unfold n_scans in Hp; lia)).
  rewrite Z.add_0_l, Z2Nat.id by lia.
  replace (p <? Z.of_nat (length (_bounds b)) - 1) with true
    by (symmetry; apply Z.ltb_lt; lia).
  replace (p >=? 0) with true by (symmetry; apply Z.geb_le; lia).
  reflexivity.
Qed.

Lemma get_mask_by_identifier_witness :
  get_mask two_scans (Str "B") = get_mask two_scans (Int 1).
Proof.
  apply (get_mask_by_identifier two_scans 1).
  - reflexivity.
  - repeat constructor; simpl; intuition discriminate.
  - unfold n_scans; simpl; lia.
Defined.

Lemma slice_in_range {A} (l : list A) (lo hi : Z) :
  0 <= lo <= hi -> hi <= Z.of_nat (length l) ->
  Np.slice l lo hi = firstn (Z.to_nat (hi - lo)) (skipn (Z.to_nat lo) l).
Proof.
  intros H1 H2. unfold Np.slice, Np.slice_len, Np.slice_start, Np.clip.
  destruct (Z.ltb_spec lo 0); [lia|]. destruct (Z.ltb_spec hi 0); [lia|].
  rewrite !Z.min_r, !Z.max_r by lia. reflexivity.
Qed.

Lemma firstn_then_slice {A} (l : list A) (lo hi : Z) :
  0 <= lo <= hi -> hi <= Z.of_nat (length l) ->
  firstn (Z.to_nat lo) l ++ Np.slice l lo hi = firstn (Z.to_nat hi) l.
Proof.
  intros H1 H2. rewrite slice_in_range by assumption.
  rewrite <- (firstn_skipn (Z.to_nat lo) l) at 3.
  rewrite firstn_app, firstn_firstn, length_firstn.
  replace (Init.Nat.min (Z.to_nat hi) (Z.to_nat lo)) with (Z.to_nat lo) by lia.
  do 2 f_equal. lia.
Qed.

Lemma bounds_monotone (b : Batch) (i j : nat) :
  nondecreasing b -> (i <= j)%nat -> Z.of_nat j <= n_scans b ->
  nth i (_bounds b) 0 <= nth j (_bounds b) 0.
Proof.
  intros Hmono Hij. induction Hij as [|j Hij IH]; intros Hj; [lia|].
  specialize (Hmono (Z.of_nat j)). rewrite Nat2Z.id in Hmono.
  replace (Z.to_nat (Z.of_nat j + 1)) with (S j) in Hmono by lia.
  lia.
Qed.

Lemma last_as_nth {A} (l : list A) (n : nat) (d : A) :
  length l = S n -> last l d = nth n l d.
Proof.
  revert n. induction l as [|a t IH]; intros n Hl; [discriminate|].
  destruct t as [|a' t'].
  - simpl in Hl. injection Hl as <-. reflexivity.
  - destruct n as [|n]; [simpl in Hl; lia|].
    change (last (a :: a' :: t') d) with (last (a' :: t') d).
    rewrite (IH n) by (simpl in Hl |- *; lia). reflexivity.
Qed.

Lemma views_up_to (b : Batch) (m : Np.ndarray3) (k : nat) :
  skyscraper b -> nondecreasing b ->
  nth 0 (_bounds b) 0 = 0 -> last (_bounds b) 0 = Np.shape0 m ->
  Z.of_nat k <= n_scans b ->
  concat (map (fun p => Np.planes (scan_at b m (Z.of_nat p))) (seq 0 k))
  = firstn (Z.to_nat (nth k (_bounds b) 0)) (Np.planes m).
Proof.
  intros Hs Hmono H0 Hlast. unfold skyscraper in Hs.
  assert (Hend : nth (length (indices b)) (_bounds b) 0 = Np.shape0 m).
  { rewrite <- Hlast. symmetry. apply last_as_nth. unfold n_scans in Hs. lia. }
  induction k as [|k IH]; intros Hk.
  - simpl. rewrite H0. reflexivity.
  - rewrite seq_S, map_app, concat_app, IH by lia. simpl. rewrite app_nil_r.
    unfold scan_at. simpl Np.planes.
    rewrite Nat2Z.id.
    replace (Z.to_nat (Z.of_nat k + 1)) with (S k) by lia.
    apply firstn_then_slice.
    + pose proof (bounds_monotone b 0 k Hmono ltac:(lia) ltac:(lia)).
      pose proof (bounds_monotone b k (S k) Hmono ltac:(lia) ltac:(lia)). lia.
    + pose proof (bounds_monotone b (S k) (length (indices b)) Hmono
                    ltac:(unfold n_scans in Hk; lia) ltac:(unfold n_scans; lia)).
      unfold Np.shape0 in Hend. lia.
Qed.

(** X12. On a batch whose bounds start at 0, do not decrease and end at the
    number of planes of the mask, the views that [get_mask] returns for the
    positions 0 to N-1, put one after the other, are the whole mask: the
    scans tile the buffer, no plane is left out or taken twice. *)
Theorem get_mask_views_tile (b : Batch) (m : Np.ndarray3) :
  skyscraper b -> mask b = Some m -> nondecreasing b ->
  nth 0 (_bounds b) 0 = 0 -> last (_bounds b) 0 = Np.shape0 m ->
  exists views,
    mapM (fun p => get_mask b (Int (Z.of_nat p))) (seq 0 (length (indices b)))
    = Ok views /\
    concat (map Np.planes views) = Np.planes m.
Proof.
  intros Hs Hm Hmono H0 Hlast.
  exists (map (fun p => scan_at b m (Z.of_nat p)) (seq 0 (length (indices b)))).
  split.
  - apply mapM_map. apply Forall_forall. intros p Hp. apply in_seq in Hp.
    apply get_mask_at; [exact Hs | exact Hm | unfold n_scans; lia].
  - rewrite map_map.
    rewrite (views_up_to b m (length (indices b)) Hs Hmono H0 Hlast)
      by (unfold n_scans; lia).
    apply firstn_all2.
    assert (Hend : nth (length (indices b)) (_bounds b) 0 = Np.shape0 m).
    { rewrite <- Hlast. symmetry. apply last_as_nth.
      unfold skyscraper, n_scans in Hs. lia. }
    rewrite Hend. unfold Np.shape0. lia.
Qed.

Lemma get_mask_views_tile_witness :
  exists views,
    mapM (fun p => get_mask two_scans (Int (Z.of_nat p))) [0; 1]%nat = Ok views /\
    concat (map Np.planes views) = Np.planes (zeros 10 4 4).
Proof.
  apply (get_mask_views_tile two_scans (zeros 10 4 4)); try reflexivity.
  intros p Hp.
  assert (p = 0 \/ p = 1) as [-> | ->]
    by (unfold n_scans in Hp; simpl in Hp; lia); simpl; lia.
Defined.

(** ** Extraction of patches *)

Lemma fits_in_range (extent lo size : Z) :
  0 <= lo -> 0 <= size -> lo + size <= extent -> fits extent lo size = true.
Proof.
  intros H1 H2 H3. unfold fits, Np.slice_len, Np.clip.
  destruct (Z.ltb_spec lo 0); [lia|].
  destruct (Z.ltb_spec (lo + size) 0); [lia|].
  rewrite !Z.min_r, !Z.max_r by lia.
  replace (Z.of_nat (Z.to_nat (lo + size - lo))) with size by lia.
  rewrite Z.eqb_refl. reflexivity.
Qed.

Lemma slice_length {A} (l : list A) (lo size : Z) :
  0 <= lo -> 0 <= size -> lo + size <= Z.of_nat (length l) ->
  Z.of_nat (length (Np.slice l lo (lo + size))) = size.
Proof.
  intros H1 H2 H3. rewrite slice_in_range by lia.
  rewrite length_firstn, length_skipn. lia.
Qed.

Lemma slice_nth_error {A} (l : list A) (lo size : Z) (k : nat) :
  0 <= lo -> 0 <= size -> lo + size <= Z.of_nat (length l) ->
  Z.of_nat k < size ->
  nth_error (Np.slice l lo (lo + size)) k = nth_error l (Z.to_nat lo + k).
Proof.
  intros H1 H2 H3 Hk. rewrite slice_in_range by lia.
  rewrite nth_error_firstn.
  destruct (Nat.ltb_spec k (Z.to_nat (lo + size - lo))); [|lia].
  apply nth_error_skipn.
Qed.

Lemma stretch_same {A} (d : A) (n : Z) (l : list A) :
  Z.of_nat (length l) = n -> stretch d n l = l.
Proof. intros H. unfold stretch. rewrite H, Z.eqb_refl. reflexivity. Qed.

Lemma concat_blocks_nth_error {A} (blocks : list (list A)) (n i k : nat)
    (blk : list A) :
  Forall (fun x => length x = n) blocks ->
  nth_error blocks i = Some blk -> (k < n)%nat ->
  nth_error (concat blocks) (i * n + k) = nth_error blk k.
Proof.
  intros Hall. revert i. induction Hall as [|x t Hx _ IH]; intros i Hi Hk.
  - destruct i; discriminate.
  - destruct i as [|i]; simpl in Hi |- *.
    + injection Hi as ->. apply nth_error_app1. lia.
    + rewrite nth_error_app2 by lia.
      replace (n + i * n + k - length x)%nat with (i * n + k)%nat by lia.
      apply IH; assumption.
Qed.

Lemma patch_voxel (data : Np.ndarray3) (pos size : vec3 Z) (dz dy dx : nat) :
  well_shaped data -> in_bounds data size pos ->
  Z.of_nat dz < ax0 size -> Z.of_nat dy < ax1 size -> Z.of_nat dx < ax2 size ->
  voxel (patch data pos size) dz dy dx
  = voxel (Np.planes data) (Z.to_nat (ax0 pos) + dz) (Z.to_nat (ax1 pos) + dy)
      (Z.to_nat (ax2 pos) + dx).
Proof.
  intros Hws ((A0 & B0) & (A1 & B1) & (A2 & B2)) Hz Hy Hx.
  unfold Np.shape0 in B0. unfold patch, voxel.
  rewrite stretch_same by (rewrite length_map; apply slice_length; lia).
  rewrite nth_error_map, slice_nth_error by lia.
  destruct (nth_error (Np.planes data) (Z.to_nat (ax0 pos) + dz)) as [pl|] eqn:Epl;
    [|reflexivity].
  unfold well_shaped in Hws. rewrite Forall_forall in Hws.
  destruct (Hws pl (nth_error_In _ _ Epl)) as [Hpl Hrows].
  simpl option_map. cbv iota.
  rewrite stretch_same by (rewrite length_map; apply slice_length; lia).
  rewrite nth_error_map, slice_nth_error by lia.
  destruct (nth_error pl (Z.to_nat (ax1 pos) + dy)) as [row|] eqn:Erow;
    [|reflexivity].
  rewrite Forall_forall in Hrows.
  pose proof (Hrows row (nth_error_In _ _ Erow)) as Hrow.
  simpl option_map. cbv iota.
  rewrite stretch_same by (apply slice_length; lia).
  apply slice_nth_error; lia.
Qed.

(** X13. For a well-shaped array, sizes that are not negative and start
    pixels whose patches lie in the array, [get_nodules_jit] returns an array
    of shape [(n * size[0], size[1], size[2])] in which the block [i] of
    [size[0]] planes is the patch at [positions[i]]: its voxel [(dz, dy, dx)]
    is the voxel [(positions[i] + (dz, dy, dx))] of the data. *)
Theorem get_nodules_jit_patches (data : Np.ndarray3)
    (positions : list (vec3 Z)) (size : vec3 Z) :
  well_shaped data -> v3all (fun s => 0 <= s) size ->
  Forall (in_bounds data size) positions ->
  exists out,
    get_nodules_jit data positions size = Ok out /\
    Np.shape out
    = (Z.of_nat (length positions) * ax0 size, ax1 size, ax2 size) /\
    forall (i : nat) (pos : vec3 Z) (dz dy dx : nat),
      nth_error positions i = Some pos ->
      Z.of_nat dz < ax0 size -> Z.of_nat dy < ax1 size ->
      Z.of_nat dx < ax2 size ->
      voxel (Np.planes out) (i * Z.to_nat (ax0 size) + dz) dy dx
      = voxel (Np.planes data) (Z.to_nat (ax0 pos) + dz)
          (Z.to_nat (ax1 pos) + dy) (Z.to_nat (ax2 pos) + dx).
Proof.
  intros Hws (S0 & S1 & S2) Hin.
  assert (Hrun : get_nodules_jit data positions size
                 = Ok {| Np.shape1 := ax1 size; Np.shape2 := ax2 size;
                         Np.planes := concat (map (fun pos => patch data pos size)
                                                  positions) |}).
  { unfold get_nodules_jit.
    destruct (Z.ltb_spec (ax0 size) 0); [lia|].
    destruct (Z.ltb_spec (ax1 size) 0); [lia|].
    destruct (Z.ltb_spec (ax2 size) 0); [lia|]. simpl orb.
    replace (forallb _ positions) with true; [reflexivity|].
    symmetry. apply forallb_forall. intros pos Hpos.
    rewrite Forall_forall in Hin.
    destruct (Hin pos Hpos) as ((A0 & B0) & (A1 & B1) & (A2 & B2)).
    rewrite !fits_in_range by lia. reflexivity. }
  eexists. split; [exact Hrun|]. split.
  - apply (get_nodules_jit_shape data _ positions size Hrun).
  - intros i pos dz dy dx Hi Hz Hy Hx. cbn [Np.planes]. unfold voxel at 1.
    rewrite (concat_blocks_nth_error _ (Z.to_nat (ax0 size)) i dz
               (patch data pos size)).
    + rewrite Forall_forall in Hin.
      apply (patch_voxel data pos size dz dy dx Hws
               (Hin pos (nth_error_In _ _ Hi)) Hz Hy Hx).
    + apply Forall_forall. intros blk Hblk. apply in_map_iff in Hblk.
      destruct Hblk as (q & <- & _). unfold patch.
      apply stretch_length. exact S0.
    + rewrite nth_error_map, Hi. reflexivity.
    + lia.
Qed.

Lemma get_nodules_jit_patches_witness :
  exists out,
    get_nodules_jit (zeros 10 4 4) [(8, 0, 2); (0, 1, 1)] (2, 2, 2) = Ok out /\
    Np.shape out = (4, 2, 2) /\
    voxel (Np.planes out) 3 1 0 = voxel (Np.planes (zeros 10 4 4)) 1 2 1.
Proof.
  destruct (get_nodules_jit_patches (zeros 10 4 4) [(8, 0, 2); (0, 1, 1)]
              (2, 2, 2)) as (out & Hrun & Hshape & Hvox).
  - repeat constructor.
  - unfold v3all, ax0, ax1, ax2; simpl; lia.
  - repeat constructor; unfold ax0, ax1, ax2, Np.shape0; simpl; lia.
  - exists out. split; [exact Hrun|]. split; [exact Hshape|].
    apply (Hvox 1%nat (0, 1, 1) 1%nat 1%nat 0%nat);
      [reflexivity | | |]; unfold ax0, ax1, ax2; simpl; lia.
Defined.

(** ** The nodule table *)

Lemma ascii_compare_lt_trans (a b c : ascii) :
  Ascii.compare a b = Lt -> Ascii.compare b c = Lt -> Ascii.compare a c = Lt.
Proof.
  unfold Ascii.compare. rewrite !N.compare_lt_iff. apply N.lt_trans.
Qed.

Lemma string_compare_lt_trans (s1 s2 s3 : string) :
  String.compare s1 s2 = Lt -> String.compare s2 s3 = Lt ->
  String.compare s1 s3 = Lt.
Proof.
  revert s2 s3. induction s1 as [|c1 s1 IH]; intros [|c2 s2] [|c3 s3];
    simpl; try discriminate; try reflexivity.
  destruct (Ascii.compare c1 c2) eqn:E12; try discriminate;
    destruct (Ascii.compare c2 c3) eqn:E23; try discriminate; intros H1 H2.
  - apply Ascii.compare_eq_iff in E12, E23. subst c2 c3.
    replace (Ascii.compare c1 c1) with Eq
      by (symmetry; unfold Ascii.compare; apply N.compare_refl).
    apply (IH s2); assumption.
  - apply Ascii.compare_eq_iff in E12. subst c2. rewrite E23. reflexivity.
  - apply Ascii.compare_eq_iff in E23. subst c3. rewrite E12. reflexivity.
  - rewrite (ascii_compare_lt_trans c1 c2 c3 E12 E23). reflexivity.
Qed.

Lemma insert_unique_In (s x : string) (l : list string) :
  In x (insert_unique s l) <-> x = s \/ In x l.
Proof.
  induction l as [|h t IH]; simpl; [intuition|].
  destruct (String.compare s h) eqn:E; simpl.
  - apply String.compare_eq_iff in E. subst h. intuition.
  - intuition.
  - rewrite IH. intuition.
Qed.

Lemma insert_unique_sorted (s : string) (l : list string) :
  StronglySorted (fun a b => String.compare a b = Lt) l ->
  StronglySorted (fun a b => String.compare a b = Lt) (insert_unique s l).
Proof.
  induction 1 as [|h t Hs IH Hh]; simpl.
  - constructor; constructor.
  - destruct (String.compare s h) eqn:E.
    + constructor; assumption.
    + constructor; [constructor; assumption|].
      constructor; [exact E|].
      eapply Forall_impl; [|exact Hh]. intros x Hx.
      apply (string_compare_lt_trans s h x E Hx).
    + constructor; [exact IH|].
      apply Forall_forall. intros x Hx. apply insert_unique_In in Hx.
      destruct Hx as [->|Hx].
      * rewrite String.compare_antisym, E. reflexivity.
      * rewrite Forall_forall in Hh. apply Hh. exact Hx.
Qed.

Lemma sorted_NoDup (l : list string) :
  StronglySorted (fun a b => String.compare a b = Lt) l -> NoDup l.
Proof.
  induction 1 as [|h t Hs IH Hh]; constructor; [|exact IH].
  intros Hin. rewrite Forall_forall in Hh. specialize (Hh h Hin).
  pose proof (String.compare_antisym h h) as Ha. rewrite Hh in Ha.
  discriminate Ha.
Qed.

Lemma intersect1d_In (ar1 ar2 : list string) (x : string) :
  In x (intersect1d ar1 ar2) <-> In x ar1 /\ In x ar2.
Proof.
  unfold intersect1d. induction ar1 as [|h t IH]; simpl; [intuition|].
  destruct (existsb (String.eqb h) ar2) eqn:E; simpl.
  - rewrite insert_unique_In, IH.
    apply existsb_exists in E. destruct E as (y & Hy & Heq).
    apply String.eqb_eq in Heq. subst y. intuition. subst. assumption.
  - rewrite IH. split; [intuition|]. intros [[->|Hx] H2]; [|intuition].
    exfalso. assert (existsb (String.eqb x) ar2 = true); [|congruence].
    apply existsb_exists. exists x. split; [exact H2 | apply String.eqb_refl].
Qed.

Lemma intersect1d_NoDup (ar1 ar2 : list string) : NoDup (intersect1d ar1 ar2).
Proof.
  apply sorted_NoDup. unfold intersect1d.
  induction (filter (fun s => existsb (String.eqb s) ar2) ar1) as [|h t IH];
    simpl; [constructor | apply insert_unique_sorted; exact IH].
Qed.

Lemma df_loc_In (nodules_df : list DfRow) (ids : list string) (r : DfRow) :
  In r (df_loc nodules_df ids) <-> In r nodules_df /\ In (seriesuid r) ids.
Proof.
  unfold df_loc. rewrite in_flat_map. split.
  - intros (id & Hid & Hr). apply filter_In in Hr. destruct Hr as [Hr Heq].
    apply String.eqb_eq in Heq. subst id. split; assumption.
  - intros [Hr Hid]. exists (seriesuid r). split; [exact Hid|].
    apply filter_In. split; [exact Hr | apply String.eqb_refl].
Qed.

Lemma nodule_row_ok (b : Batch) (d : Np.ndarray3) (r : DfRow) :
  skyscraper b -> _data b = Some d -> In (seriesuid r) (indices b) ->
  nodule_row b r
  = Ok (pos_of b (seriesuid r),
        Np.shape (scan_at b d (pos_of b (seriesuid r))),
        (coordZ r, coordY r, coordX r),
        (diameter_mm r, diameter_mm r, diameter_mm r)) /\
  0 <= pos_of b (seriesuid r) < n_scans b.
Proof.
  intros Hs Hd Hin.
  destruct (get_pos_from_In (indices b) 0 (seriesuid r) Hin) as (p & Hp & Hr).
  unfold nodule_row, pos_of, get_image, scan_bounds, resolve_pos, get_pos.
  rewrite Hp. cbn [Py.bind]. unfold skyscraper in Hs.
  assert (Hp' : 0 <= p < n_scans b) by (unfold n_scans; lia).
  rewrite (get_nth (_bounds b) p 0) by lia.
  rewrite (get_nth (_bounds b) (p + 1) 0) by lia.
  rewrite Hd. split; [reflexivity | exact Hp'].
Qed.

Lemma combine_map {A B C} (f : A -> B) (g : A -> C) (l : list A) :
  combine (map f l) (map g l) = map (fun x => (f x, g x)) l.
Proof. induction l as [|a t IH]; simpl; [|rewrite IH]; reflexivity. Qed.

Lemma nodules_table_ok (b : Batch) (d : Np.ndarray3) (sp og : list (vec3 Q))
    (nodules_df : list DfRow) :
  skyscraper b -> _data b = Some d ->
  spacing b = Some sp -> origin b = Some og ->
  Z.of_nat (length sp) = n_scans b -> Z.of_nat (length og) = n_scans b ->
  let rows := df_loc nodules_df
                (intersect1d (map seriesuid nodules_df) (indices b)) in
  nodules_table b nodules_df
  = Ok (map (annotated b d sp og) rows,
        map (fun r => pos_of b (seriesuid r)) rows) /\
  Forall (fun r => 0 <= pos_of b (seriesuid r) < n_scans b) rows.
Proof.
  intros Hs Hd Hsp Hog Hlsp Hlog rows.
  assert (Hrows : Forall (fun r => In (seriesuid r) (indices b)) rows).
  { apply Forall_forall. intros r Hr. apply df_loc_In in Hr.
    destruct Hr as [_ Hr]. apply intersect1d_In in Hr. apply Hr. }
  assert (Hrange : Forall (fun r => 0 <= pos_of b (seriesuid r) < n_scans b) rows).
  { eapply Forall_impl; [|exact Hrows]. intros r Hr.
    apply (nodule_row_ok b d r Hs Hd Hr). }
  split; [|exact Hrange].
  unfold nodules_table. fold rows.
  rewrite (mapM_map (nodule_row b)
             (fun r => (pos_of b (seriesuid r),
                        Np.shape (scan_at b d (pos_of b (seriesuid r))),
                        (coordZ r, coordY r, coordX r),
                        (diameter_mm r, diameter_mm r, diameter_mm r)))).
  2:{ eapply Forall_impl; [|exact Hrows]. intros r Hr.
      apply (nodule_row_ok b d r Hs Hd Hr). }
  cbn [Py.bind]. rewrite map_map. cbn [fst snd].
  assert (Hpp : Forall (fun p => 0 <= p < n_scans b)
                  (map (fun r => pos_of b (seriesuid r)) rows)).
  { apply Forall_map. exact Hrange. }
  unfold skyscraper in Hs.
  rewrite (mapM_map _ (fun p => nth (Z.to_nat p) (_bounds b) 0)).
  2:{ eapply Forall_impl; [|exact Hpp]. intros p Hp. cbv beta in Hp.
      rewrite (get_nth (_bounds b) p 0) by lia. reflexivity. }
  cbn [Py.bind]. rewrite Hsp. cbn [Py.bind Py.of_option].
  rewrite (mapM_map _ (fun p => nth (Z.to_nat p) sp (0%Q, 0%Q, 0%Q))).
  2:{ eapply Forall_impl; [|exact Hpp]. intros p Hp. cbv beta in Hp.
      rewrite (get_nth sp p (0%Q, 0%Q, 0%Q)) by lia. reflexivity. }
  cbn [Py.bind]. rewrite Hog. cbn [Py.bind Py.of_option].
  rewrite (mapM_map _ (fun p => nth (Z.to_nat p) og (0%Q, 0%Q, 0%Q))).
  2:{ eapply Forall_impl; [|exact Hpp]. intros p Hp. cbv beta in Hp.
      rewrite (get_nth og p (0%Q, 0%Q, 0%Q)) by lia. reflexivity. }
  cbn [Py.bind]. do 2 f_equal.
  rewrite !map_map, !combine_map, map_map. reflexivity.
Qed.

(** X14. On a batch with its bounds, its data and one spacing and one origin
    per scan, [fetch_nodules_info] (when there is no table yet, or with
    [update]) builds a table that fits the batch: one owning position per
    nodule, each a position of the batch, and for every nodule the bias is
    [bounds[position]] on z and 0 on y and x, the spacing and the origin are
    those of its scan, and the image size is the shape of its scan. The
    rest of the batch is not changed. *)
Theorem fetch_nodules_info_table (b : Batch) (d : Np.ndarray3)
    (sp og : list (vec3 Q)) (nodules_df : list DfRow) (update : bool) :
  skyscraper b -> _data b = Some d ->
  spacing b = Some sp -> origin b = Some og ->
  Z.of_nat (length sp) = n_scans b -> Z.of_nat (length og) = n_scans b ->
  nodules b = None \/ update = true ->
  exists rows,
    fetch_nodules_info nodules_df update b
    = (Ok tt,
       {| indices := indices b; _data := _data b; _bounds := _bounds b;
          mask := mask b;
          nodules := Some (map (annotated b d sp og) rows);
          nodules_pat_pos := Some (map (fun r => pos_of b (seriesuid r)) rows);
          spacing := spacing b; origin := origin b |}) /\
    table_fits (snd (fetch_nodules_info nodules_df update b)) /\
    Forall (fun r => In r nodules_df /\
                     get_pos b (seriesuid r) = Ok (pos_of b (seriesuid r)))
           rows.
Proof.
  intros Hs Hd Hsp Hog Hlsp Hlog Hnew.
  destruct (nodules_table_ok b d sp og nodules_df Hs Hd Hsp Hog Hlsp Hlog)
    as [Htab Hrange].
  set (rows := df_loc nodules_df
                 (intersect1d (map seriesuid nodules_df) (indices b))) in *.
  exists rows.
  assert (Hrun : fetch_nodules_info nodules_df update b
    = (Ok tt,
       {| indices := indices b; _data := _data b; _bounds := _bounds b;
          mask := mask b;
          nodules := Some (map (annotated b d sp og) rows);
          nodules_pat_pos := Some (map (fun r => pos_of b (seriesuid r)) rows);
          spacing := spacing b; origin := origin b |})).
  { unfold fetch_nodules_info.
    replace ((match nodules b with Some _ => true | None => false end)
             && negb update) with false.
    - rewrite Htab. reflexivity.
    - destruct Hnew as [-> | ->]; [reflexivity|].
      symmetry. apply andb_false_r. }
  split; [exact Hrun|]. split.
  - rewrite Hrun. unfold table_fits. cbn [snd nodules nodules_pat_pos].
    split; [rewrite !length_map; reflexivity|].
    apply Forall_map. exact Hrange.
  - apply Forall_forall. intros r Hr. apply df_loc_In in Hr.
    destruct Hr as [Hr Hid]. split; [exact Hr|].
    apply intersect1d_In in Hid. destruct Hid as [_ Hid].
    destruct (get_pos_from_In (indices b) 0 (seriesuid r) Hid) as (p & Hp & _).
    unfold pos_of, get_pos. rewrite Hp. reflexivity.
Qed.

(** The annotations of [annotations] give [two_scans] its table back. *)
Lemma fetch_nodules_info_table_witness :
  fst (fetch_nodules_info annotations true two_scans) = Ok tt /\
  table_fits (snd (fetch_nodules_info annotations true two_scans)) /\
  nodules (snd (fetch_nodules_info annotations true two_scans))
  = nodules two_scans.
Proof.
  destruct (fetch_nodules_info_table two_scans (zeros 10 4 4)
              [(1%Q, 1%Q, 1%Q); (1%Q, 1%Q, 1%Q)]
              [(0%Q, 0%Q, 0%Q); (0%Q, 0%Q, 0%Q)] annotations true)
    as (rows & Hrun & Hfit & _); try reflexivity.
  - right. reflexivity.
  - split; [rewrite Hrun; reflexivity|]. split; [exact Hfit|].
    reflexivity.
Defined.

Lemma filter_disjoint (A : Type) (p q : A -> bool) (l : list A) :
  (forall x, In x l -> p x = true -> q x = false) ->
  Permutation (filter p l ++ filter q l) (filter (fun x => p x || q x) l).
Proof.
  induction l as [|a t IH]; intros H; [constructor|].
  assert (Ht : forall x, In x t -> p x = true -> q x = false)
    by (intros x Hx; apply H; right; exact Hx).
  simpl. destruct (p a) eqn:Ep.
  - rewrite (H a (or_introl eq_refl) Ep). simpl. constructor. apply IH, Ht.
  - destruct (q a); simpl.
    + symmetry. apply Permutation_cons_app. symmetry. apply IH, Ht.
    + apply IH, Ht.
Qed.

Lemma df_loc_permutation (nodules_df : list DfRow) (ids : list string) :
  NoDup ids ->
  Permutation (df_loc nodules_df ids)
    (filter (fun r => existsb (String.eqb (seriesuid r)) ids) nodules_df).
Proof.
  induction 1 as [|id ids Hnotin _ IH].
  - simpl. induction nodules_df as [|r t IHt]; [constructor | exact IHt].
  - simpl df_loc. simpl existsb.
    etransitivity; [apply Permutation_app_head; exact IH|].
    apply filter_disjoint. intros r _ Heq.
    apply String.eqb_eq in Heq. subst id.
    apply not_true_is_false. intros E. apply Hnotin.
    apply existsb_exists in E. destruct E as (y & Hy & Hyr).
    apply String.eqb_eq in Hyr. subst y. exact Hy.
Qed.

(** X15. The table that [fetch_nodules_info] builds has one nodule for every
    annotation of a scan of the batch, neither more nor less: the rows it is
    made of are a permutation of the annotations whose [seriesuid] is an
    identifier of the batch; annotations of other scans are left out. *)
Theorem fetch_nodules_info_annotations (b : Batch) (d : Np.ndarray3)
    (sp og : list (vec3 Q)) (nodules_df : list DfRow) (update : bool) :
  skyscraper b -> _data b = Some d ->
  spacing b = Some sp -> origin b = Some og ->
  Z.of_nat (length sp) = n_scans b -> Z.of_nat (length og) = n_scans b ->
  nodules b = None \/ update = true ->
  exists rows,
    nodules (snd (fetch_nodules_info nodules_df update b))
    = Some (map (annotated b d sp og) rows) /\
    Permutation rows (filter (of_batch b) nodules_df).
Proof.
  intros Hs Hd Hsp Hog Hlsp Hlog Hnew.
  destruct (nodules_table_ok b d sp og nodules_df Hs Hd Hsp Hog Hlsp Hlog)
    as [Htab _].
  eexists. split.
  - unfold fetch_nodules_info.
    replace ((match nodules b with Some _ => true | None => false end)
             && negb update) with false
      by (destruct Hnew as [-> | ->];
          [reflexivity | symmetry; apply andb_false_r]).
    rewrite Htab. reflexivity.
  - etransitivity; [apply df_loc_permutation, intersect1d_NoDup|].
    rewrite (filter_ext_in _ (of_batch b)); [reflexivity|].
    intros r Hr. unfold of_batch.
    destruct (existsb (String.eqb (seriesuid r)) (indices b)) eqn:E.
    + apply existsb_exists. exists (seriesuid r).
      split; [|apply String.eqb_refl].
      apply intersect1d_In. split; [apply in_map; exact Hr|].
      apply existsb_exists in E. destruct E as (y & Hy & Heq).
      apply String.eqb_eq in Heq. subst y. exact Hy.
    + apply not_true_is_false. intros E'. apply existsb_exists in E'.
      destruct E' as (y & Hy & Heq). apply String.eqb_eq in Heq. subst y.
      apply intersect1d_In in Hy. destruct Hy as [_ Hy].
      assert (existsb (String.eqb (seriesuid r)) (indices b) = true);
        [|congruence].
      apply existsb_exists. exists (seriesuid r).
      split; [exact Hy | apply String.eqb_refl].
Qed.

Lemma fetch_nodules_info_annotations_witness :
  exists rows,
    nodules (snd (fetch_nodules_info annotations true two_scans))
    = Some (map (annotated two_scans (zeros 10 4 4)
                   [(1%Q, 1%Q, 1%Q); (1%Q, 1%Q, 1%Q)]
                   [(0%Q, 0%Q, 0%Q); (0%Q, 0%Q, 0%Q)]) rows) /\
    Permutation rows (filter (of_batch two_scans) annotations).
Proof.
  apply (fetch_nodules_info_annotations two_scans (zeros 10 4 4));
    try reflexivity.
  right. reflexivity.
Defined.

(** ** The tasks of the parallel mask build *)





(** ** The mask after a rebuild *)

Lemma zeros_like_shape (a : Np.ndarray3) : Np.shape (zeros_like a) = Np.shape a.
Proof.
  unfold Np.shape, Np.shape0, zeros_like. simpl. rewrite length_map.
  reflexivity.
Qed.

(** X17. [_post_rebuild] gives the rebuilt batch the spacing and the origin
    of [self] and a mask of the shape of the rebuilt data, also when the
    mask build raises; without a nodule table the mask is all zeros. *)
Theorem post_rebuild_mask (self batch : Batch) (data : Np.ndarray3) :
  let r := _post_rebuild self batch data in
  _data (snd r) = Some data /\
  option_map Np.shape (mask (snd r)) = Some (Np.shape data) /\
  spacing (snd r) = spacing self /\ origin (snd r) = origin self /\
  _bounds (snd r) = _bounds batch /\
  (nodules self = None ->
   fst r = Ok tt /\ mask (snd r) = Some (zeros_like data)).
Proof.
  unfold _post_rebuild. destruct (nodules self) as [nods|] eqn:Hn.
  - set (b2 := {| indices := indices batch; _data := Some data;
                  _bounds := _bounds batch; mask := Some (zeros_like data);
                  nodules := Some nods;
                  nodules_pat_pos := nodules_pat_pos self;
                  spacing := spacing self; origin := origin self |}).
    cbv zeta. cbn [indices _data _bounds mask spacing origin].
    fold b2. unfold create_mask. cbn [nodules b2]. fold b2.
    destruct (create_mask_loop_marks (map start_pix nods) (map size_pix nods)
                (indices b2) b2) as [S HS].
    rewrite HS.
    destruct (remark_fields S b2) as (_ & H1 & H2 & _ & _ & H3 & H4 & H5).
    rewrite H1, H2, H3, H4, H5. cbn [b2 _data _bounds mask spacing origin].
    simpl option_map. rewrite zeros_like_shape.
    repeat split; try reflexivity; discriminate.
  - cbv zeta. simpl. rewrite zeros_like_shape. repeat split; reflexivity.
Qed.

Lemma post_rebuild_mask_witness :
  fst (_post_rebuild no_nodules no_nodules (zeros 4 2 2)) = Ok tt /\
  mask (snd (_post_rebuild no_nodules no_nodules (zeros 4 2 2)))
  = Some (zeros_like (zeros 4 2 2)).
Proof.
  destruct (post_rebuild_mask no_nodules no_nodules (zeros 4 2 2))
    as (_ & _ & _ & _ & _ & H).
  apply H. reflexivity.
Defined.

(** ** Rescaling the spacing again *)

Lemma rescale_spacing_run (b : Batch) (d : Np.ndarray3) (sp : list (vec3 Q))
    (new_shape : vec3 Z) :
  skyscraper b -> NoDup (indices b) -> _data b = Some d ->
  spacing b = Some sp -> Z.of_nat (length sp) = n_scans b ->
  table_fits b ->
  let b1 := snd (_rescale_spacing new_shape b) in
  fst (_rescale_spacing new_shape b) = Ok tt /\
  spacing b1 = Some (imap_from (rescaled b d new_shape) 0 sp) /\
  indices b1 = indices b /\ _bounds b1 = _bounds b /\ _data b1 = _data b /\
  table_fits b1.
Proof.
  intros Hs Hnd Hd Hsp Hlsp Hfit.
  assert (Hb : b = set_spacing b ([] ++ sp)).
  { destruct b; simpl in *. rewrite Hsp. reflexivity. }
  pose proof (rescale_loop_spec b d new_shape Hs Hnd Hd (indices b) [] [] sp
                eq_refl eq_refl) as Hloop.
  rewrite <- Hb in Hloop. simpl in Hloop.
  unfold _rescale_spacing. rewrite Hsp, Hloop.
  2:{ unfold n_scans in Hlsp. lia. }
  set (sp' := imap_from (rescaled b d new_shape) 0 sp).
  cbn [nodules set_spacing]. unfold table_fits in Hfit.
  destruct (nodules b) as [nods|] eqn:Hnods.
  - destruct (nodules_pat_pos b) as [pp|] eqn:Hpp; [|contradiction].
    destruct Hfit as [Hlen Hrange].
    rewrite (rescale_nodules_spec (set_spacing b sp') new_shape sp' nods pp);
      try assumption; try reflexivity.
    2:{ unfold sp', n_scans in *. rewrite imap_from_length. simpl. lia. }
    cbn [fst snd spacing set_nodules set_spacing nodules indices _bounds _data].
    repeat split; try reflexivity.
    unfold table_fits.
    cbn [nodules nodules_pat_pos set_nodules set_spacing indices n_scans].
    rewrite Hpp. split; [|exact Hrange].
    rewrite length_map, length_combine. lia.
  - cbn [fst snd spacing set_spacing nodules indices _bounds _data].
    repeat split; try reflexivity.
    unfold table_fits. cbn [nodules set_spacing]. rewrite Hnods. exact I.
Qed.

(** X18. [_rescale_spacing] is not idempotent: it divides by the target
    shape the shape the data has at the time of the call. Called a second
    time before the data is rebuilt, it multiplies the spacing of every scan
    by [old_shape / new_shape] once more. *)
Theorem rescale_spacing_twice (b : Batch) (d : Np.ndarray3)
    (sp : list (vec3 Q)) (new_shape : vec3 Z) :
  skyscraper b -> NoDup (indices b) -> _data b = Some d ->
  spacing b = Some sp -> Z.of_nat (length sp) = n_scans b ->
  table_fits b ->
  let b1 := snd (_rescale_spacing new_shape b) in
  exists sp2,
    fst (_rescale_spacing new_shape b1) = Ok tt /\
    spacing (snd (_rescale_spacing new_shape b1)) = Some sp2 /\
    forall p, 0 <= p < n_scans b ->
      let ratio := shape_ratio (Np.shape (scan_at b d p)) new_shape in
      nth (Z.to_nat p) sp2 (0%Q, 0%Q, 0%Q)
      = v3map2 Qmult
          (v3map2 Qmult (nth (Z.to_nat p) sp (0%Q, 0%Q, 0%Q)) ratio) ratio.
Proof.
  intros Hs Hnd Hd Hsp Hlsp Hfit b1.
  destruct (rescale_spacing_run b d sp new_shape Hs Hnd Hd Hsp Hlsp Hfit)
    as (_ & Hsp1 & Hi1 & Hb1 & Hd1 & Hfit1).
  fold b1 in Hsp1, Hi1, Hb1, Hd1, Hfit1.
  set (sp1 := imap_from (rescaled b d new_shape) 0 sp) in *.
  assert (Hl1 : length sp1 = length sp) by apply imap_from_length.
  destruct (rescale_spacing_run b1 d sp1 new_shape) as (Hok & Hsp2 & _);
    try assumption.
  - unfold skyscraper, n_scans in *. rewrite Hb1, Hi1. exact Hs.
  - rewrite Hi1. exact Hnd.
  - rewrite Hd1. exact Hd.
  - unfold n_scans in *. rewrite Hi1. lia.
  - eexists. split; [exact Hok|]. split; [exact Hsp2|].
    intros p Hp ratio.
    rewrite (imap_from_nth _ 0 sp1 (Z.to_nat p) (0%Q, 0%Q, 0%Q))
      by (unfold n_scans in *; lia).
    unfold sp1 at 1.
    rewrite (imap_from_nth _ 0 sp (Z.to_nat p) (0%Q, 0%Q, 0%Q))
      by (unfold n_scans in *; lia).
    rewrite Z.add_0_l, Z2Nat.id by lia.
    unfold rescaled, scan_at. rewrite Hb1. reflexivity.
Qed.

Lemma rescale_spacing_twice_witness :
  exists sp2,
    spacing (snd (_rescale_spacing (2, 2, 2)
                    (snd (_rescale_spacing (2, 2, 2) two_scans))))
    = Some sp2 /\
    nth 1 sp2 (0%Q, 0%Q, 0%Q)
    = v3map2 Qmult
        (v3map2 Qmult (1%Q, 1%Q, 1%Q) (shape_ratio (6, 4, 4) (2, 2, 2)))
        (shape_ratio (6, 4, 4) (2, 2, 2)).
Proof.
  destruct (rescale_spacing_twice two_scans (zeros 10 4 4)
              [(1%Q, 1%Q, 1%Q); (1%Q, 1%Q, 1%Q)] (2, 2, 2))
    as (sp2 & _ & Hsp2 & Hpoint); try reflexivity.
  - repeat constructor; simpl; intuition discriminate.
  - unfold table_fits. simpl. split; [reflexivity|].
    repeat constructor; unfold n_scans; simpl; lia.
  - exists sp2. split; [exact Hsp2|].
    apply (Hpoint 1). unfold n_scans; simpl; lia.
Defined.
